(** * IPO calendar script (321.py): the two queries and the driver

    The script asks a data provider for upcoming and past IPOs, reshapes each
    answer with pandas (column selection, renaming, sorting, re-indexing) and
    prints the two tables.  This file embeds the part of pandas the script
    calls, the two query functions and the driver, and proves the properties
    the specification states about them. *)

From Stdlib Require Import List String Ascii ZArith Bool Arith Lia.
From Stdlib Require Import Sorting.Sorted Sorting.Permutation.
From Stdlib Require Import DecimalString Structures.OrderedTypeEx.
Import ListNotations.
Open Scope string_scope.
Open Scope Z_scope.
Open Scope list_scope.

(** String concatenation, Python's [+] on [str]. *)
Local Infix "+++" := String.append (at level 60, right associativity).

(** ** Outcomes of Python calls *)

(** A Python exception caught by [except Exception]: its class and [str(e)]. *)
Record exn : Type := Exn { exn_class : string; exn_str : string }.

Inductive result (A : Type) : Type :=
| Ok (a : A)
| Raise (e : exn).
Arguments Ok {A} a.
Arguments Raise {A} e.

(** ** Frames *)

Module Pandas.

(** A cell of a table: text, a number, a calendar date, or a missing value
    (None, NaN, NaT).  The queries only move numbers around, so an integer
    stands for one. *)
Inductive cell : Type :=
| Str (s : string)
| Num (n : Z)
| Date (y m d : Z)
| NA.

(** A row: its index label and its cells, one per column.  A position past
    the last cell reads as a missing value. *)
Record row : Type := Row { row_label : cell; row_cells : list cell }.

(** A pandas DataFrame: the column labels (pandas allows a label to occur more
    than once) and the rows in order. *)
Record DataFrame : Type := MkFrame { columns : list string; rows : list row }.

(** [pd.DataFrame()] *)
Definition new_frame : DataFrame := MkFrame [] [].

(** [df.empty]: some axis has length 0. *)
Definition empty (df : DataFrame) : bool :=
  match columns df, rows df with
  | [], _ => true
  | _, [] => true
  | _, _ => false
  end.

(** [df.index] *)
Definition index (df : DataFrame) : list cell := map row_label (rows df).

(** *** Locating columns *)

(** The positions at which label [k] occurs, counted from [i]. *)
Fixpoint positions_from (i : nat) (k : string) (cols : list string) : list nat :=
  match cols with
  | [] => []
  | c :: cols' =>
      if String.eqb c k then i :: positions_from (S i) k cols'
      else positions_from (S i) k cols'
  end.

Definition positions (cols : list string) (k : string) : list nat :=
  positions_from 0 k cols.

Definition cell_at (p : nat) (r : row) : cell := nth p (row_cells r) NA.

(** The rows and columns at the given column positions, in that order. *)
Definition take (ps : list nat) (df : DataFrame) : DataFrame :=
  MkFrame (map (fun p => nth p (columns df) EmptyString) ps)
        (map (fun r => Row (row_label r) (map (fun p => cell_at p r) ps)) (rows df)).

(** The pandas installation the script runs on, in what differs from one
    installation to the next: the wording of the KeyError of [df[keys]]
    (from the labels asked for and the column labels) and of the TypeError of
    a sort (from the keys present and the direction), which change with the
    versions of pandas and numpy, and the rendering of a table by
    [df.to_markdown(index=True)], which gives the text ([None]; the text
    itself is kept abstract) or raises ([Some e]), as it does with an
    ImportError where the tabulate package is not installed. *)
Record pandas : Type := {
  key_error_text : list string -> list string -> string;
  type_error_text : list cell -> bool -> string;
  to_markdown : DataFrame -> option exn
}.

(** [df[keys]] with a list of labels: every label must be present; a label
    that occurs several times selects all its columns. *)
Definition getitem (pd : pandas) (keys : list string) (df : DataFrame)
  : result DataFrame :=
  match filter (fun k => negb (existsb (String.eqb k) (columns df))) keys with
  | [] => Ok (take (flat_map (positions (columns df)) keys) df)
  | _ => Raise (Exn "KeyError" (key_error_text pd keys (columns df)))
  end.

Definition string_of_nat (n : nat) : string :=
  NilZero.string_of_uint (Nat.to_uint n).

(** [df.columns = labels]: the number of labels must match. *)
Definition set_columns (labels : list string) (df : DataFrame) : result DataFrame :=
  if Nat.eqb (List.length labels) (List.length (columns df))
  then Ok (MkFrame labels (rows df))
  else Raise (Exn "ValueError"
                ("Length mismatch: Expected axis has "
                 +++ string_of_nat (List.length (columns df))
                 +++ " elements, new values have "
                 +++ string_of_nat (List.length labels) +++ " elements")).

(** [df[k]] as a list of cells, for a label that names one column. *)
Definition column (k : string) (df : DataFrame) : list cell :=
  match positions (columns df) k with
  | p :: _ => map (cell_at p) (rows df)
  | [] => []
  end.

(** *** Order of cells *)

(** Dates compare as the triple (year, month, day). *)
Definition date_compare (y1 m1 d1 y2 m2 d2 : Z) : comparison :=
  match y1 ?= y2 with
  | Eq => match m1 ?= m2 with
          | Eq => d1 ?= d2
          | c => c
          end
  | c => c
  end.

(** Python's three-way comparison of two cells; [None] where [<] between them
    is not defined (values of different types, a missing value). *)
Definition compare (a b : cell) : option comparison :=
  match a, b with
  | Str s, Str t => Some (String.compare s t)
  | Num x, Num y => Some (x ?= y)
  | Date y1 m1 d1, Date y2 m2 d2 => Some (date_compare y1 m1 d1 y2 m2 d2)
  | _, _ => None
  end.

(** [a < b] and [a <= b] where they are defined and hold. *)
Definition ltb (a b : cell) : bool :=
  match compare a b with Some Lt => true | _ => false end.

Definition leb (a b : cell) : bool :=
  match compare a b with Some Lt | Some Eq => true | _ => false end.

Definition same_kind (a b : cell) : bool :=
  match compare a b with Some _ => true | None => false end.

Definition isna (c : cell) : bool :=
  match c with NA => true | _ => false end.

Definition notna (c : cell) : bool := negb (isna c).

(** All cells can be compared with one another. *)
Definition homogeneous (l : list cell) : bool :=
  match l with
  | [] => true
  | c :: l' => forallb (same_kind c) l'
  end.

(** *** Sorting *)

(** Insert row [r] into rows sorted on the cell at [p], before the first row
    whose key is not smaller. *)
Fixpoint insert (p : nat) (r : row) (l : list row) : list row :=
  match l with
  | [] => [r]
  | x :: l' =>
      if ltb (cell_at p x) (cell_at p r) then x :: insert p r l'
      else r :: l
  end.

(** Insertion sort of the rows on the cell at [p]. *)
Fixpoint isort (p : nat) (l : list row) : list row :=
  match l with
  | [] => []
  | r :: l' => insert p r (isort p l')
  end.

(** The row order [sort_values] computes (pandas' [nargsort] with
    [na_position='last']): the rows that have a key are sorted, for a
    descending sort by reversing them, sorting, and reversing again; the rows
    without a key follow in their original order.  pandas leaves the order of
    rows with equal keys open; here they keep the order they had. *)
Definition nargsort (p : nat) (ascending : bool) (rs : list row) : list row :=
  let non_nans := filter (fun r => notna (cell_at p r)) rs in
  let nans := filter (fun r => isna (cell_at p r)) rs in
  (if ascending then isort p non_nans else rev (isort p (rev non_nans))) ++ nans.

(** [df.sort_values(by=key, ascending=ascending)]: the label must name exactly
    one column, and the keys present must be comparable with one another. *)
Definition sort_values (pd : pandas) (key : string) (ascending : bool)
    (df : DataFrame) : result DataFrame :=
  match positions (columns df) key with
  | [] => Raise (Exn "KeyError" ("'" +++ key +++ "'"))
  | [p] =>
      let keys := filter notna (map (cell_at p) (rows df)) in
      if homogeneous keys
      then Ok (MkFrame (columns df) (nargsort p ascending (rows df)))
      else Raise (Exn "TypeError" (type_error_text pd keys ascending))
  | _ => Raise (Exn "ValueError" ("The column label '" +++ key +++ "' is not unique."))
  end.

(** Rows relabelled i, i+1, ... *)
Fixpoint relabel (i : Z) (rs : list row) : list row :=
  match rs with
  | [] => []
  | r :: rs' => Row (Num i) (row_cells r) :: relabel (i + 1) rs'
  end.

(** [df.reset_index(drop=True)]: the index becomes 0, 1, ..., n-1. *)
Definition reset_index (df : DataFrame) : DataFrame :=
  MkFrame (columns df) (relabel 0 (rows df)).

End Pandas.

Import Pandas.

(** ** Console output and the script monad *)

(** One [print] call: a text, or the text of a table rendered by
    [df.to_markdown(index=True)]. *)
Inductive item : Type :=
| Text (s : string)
| Markdown (df : DataFrame).

(** A piece of the script: what it printed, and how it ended. *)
Definition M (A : Type) : Type := (list item * result A)%type.

Definition ret {A} (a : A) : M A := ([], Ok a).

Definition bind {A B} (m : M A) (f : A -> M B) : M B :=
  match m with
  | (out, Ok a) => let (out', r) := f a in (out ++ out', r)
  | (out, Raise e) => (out, Raise e)
  end.

Definition lift {A} (r : result A) : M A := ([], r).

Definition print (s : string) : M unit := ([Text s], Ok tt).

(** [print(df.to_markdown(index=True))]: nothing is printed when the
    rendering raises. *)
Definition print_markdown (pd : pandas) (df : DataFrame) : M unit :=
  match to_markdown pd df with
  | None => ([Markdown df], Ok tt)
  | Some e => ([], Raise e)
  end.

(** [try: body except Exception as e: handler(e)] *)
Definition try_except {A} (body : M A) (handler : exn -> M A) : M A :=
  match body with
  | (out, Ok a) => (out, Ok a)
  | (out, Raise e) => let (out', r) := handler e in (out ++ out', r)
  end.

Declare Scope script_scope.
Delimit Scope script_scope with script.
Notation "x <- m ;; k" := (bind m (fun x => k))
  (at level 61, m at next level, right associativity) : script_scope.
Notation "m ;; k" := (bind m (fun _ => k))
  (at level 61, right associativity) : script_scope.
Open Scope script_scope.

(** The exit status of the interpreter: 1 when an exception reaches the top. *)
Definition exit_code {A} (m : M A) : Z :=
  match snd m with Ok _ => 0 | Raise _ => 1 end.

(** ** The provider *)

(** The object a provider call returns; the script only converts it. *)
Record OBBject : Type := { to_dataframe : result DataFrame }.

(** The part of [obb] the script uses.  Each call either raises or answers. *)
Record OBB : Type := {
  log_system_info : result unit;
  upcoming_ipo : Z -> result OBBject;
  historical_ipo : Z -> result OBBject
}.

(** ** The script *)

Definition nl : string := String "010"%char EmptyString.

(** [s * n] *)
Fixpoint str_mul (s : string) (n : nat) : string :=
  match n with
  | O => EmptyString
  | S n' => s +++ str_mul s n'
  end.

(** [str(n)] for an [int] *)
Definition str (n : Z) : string := NilZero.string_of_int (Z.to_int n).

Definition upcoming_fields : list string :=
  ["name"; "expected_date"; "expected_shares_offered"; "price_low"; "price_high"; "exchange"].

Definition upcoming_labels : list string :=
  ["Company Name"; "Expected Date"; "Shares Offered (M)"; "Price Low ($)";
   "Price High ($)"; "Exchange"].

Definition past_fields : list string := ["name"; "date"; "price"; "exchange"].

Definition past_labels : list string :=
  ["Company Name"; "IPO Date"; "IPO Price ($)"; "Exchange"].

Definition get_upcoming_ipos (pd : pandas) (obb : OBB) (limit : Z) : M DataFrame :=
  print ("--- Fetching the next " +++ str limit +++ " Upcoming IPOs... ---") ;;
  try_except
    (ipo_data <- lift (upcoming_ipo obb limit) ;;
     df <- lift (to_dataframe ipo_data) ;;
     if empty df then
       print "No upcoming IPOs found for the specified limit." ;;
       ret df
     else
       df <- lift (getitem pd upcoming_fields df) ;;
       df <- lift (set_columns upcoming_labels df) ;;
       df <- lift (sort_values pd "Expected Date" true df) ;;
       ret (reset_index df))
    (fun e =>
       print "ERROR: Could not fetch upcoming IPO data." ;;
       print ("Please ensure the 'openbb' library is installed and initialized correctly. Details: "
              +++ exn_str e) ;;
       ret new_frame).

Definition get_past_ipos (pd : pandas) (obb : OBB) (limit : Z) : M DataFrame :=
  print (nl +++ "--- Fetching the last " +++ str limit +++ " Recent Past IPOs... ---") ;;
  try_except
    (ipo_data <- lift (historical_ipo obb limit) ;;
     df <- lift (to_dataframe ipo_data) ;;
     if empty df then
       print "No recent past IPOs found for the specified limit." ;;
       ret df
     else
       df <- lift (getitem pd past_fields df) ;;
       df <- lift (set_columns past_labels df) ;;
       df <- lift (sort_values pd "IPO Date" false df) ;;
       ret (reset_index df))
    (fun e =>
       print "ERROR: Could not fetch past IPO data." ;;
       print ("Please ensure the 'openbb' library is installed and initialized correctly. Details: "
              +++ exn_str e) ;;
       ret new_frame).

(** The driver's two display blocks: the table under its title, between two
    rules, when the frame is not empty. *)
Definition display (pd : pandas) (title : string) (df : DataFrame) : M unit :=
  if negb (empty df) then
    print (nl +++ str_mul "=" 70) ;;
    print title ;;
    print_markdown pd df ;;
    print (str_mul "=" 70)
  else ret tt.

(** The body under [if __name__ == '__main__':], run once the imports at the
    top of the script have succeeded. *)
Definition main (pd : pandas) (obb : OBB) : M unit :=
  try_except (lift (log_system_info obb)) (fun _ => ret tt) ;;
  upcoming_df <- get_upcoming_ipos pd obb 10 ;;
  display pd "Upcoming IPOs:" upcoming_df ;;
  past_df <- get_past_ipos pd obb 10 ;;
  display pd "Recent Past IPOs:" past_df ;;
  print (nl +++ "Script Finished.").

(** ** Sample installations and providers *)

Definition dq : string := String "034"%char EmptyString.

Definition quoted_list (ks : list string) : string :=
  "[" +++ String.concat ", " (map (fun k => "'" +++ k +++ "'") ks) +++ "]".

Definition type_name (c : cell) : string :=
  match c with
  | Str _ => "str"
  | Num _ => "int"
  | Date _ _ _ => "datetime.date"
  | NA => "NoneType"
  end.

(** An installation that renders every table.  Its two error texts are
    samples, worded in the manner of pandas 2 and of Python's comparison
    error. *)
Definition sample_pd : pandas :=
  {| key_error_text := fun keys cols =>
       match filter (fun k => existsb (String.eqb k) cols) keys with
       | [] => dq +++ "None of [Index(" +++ quoted_list keys
                  +++ ", dtype='object')] are in the [columns]" +++ dq
       | _ => dq +++ quoted_list
                       (filter (fun k => negb (existsb (String.eqb k) cols)) keys)
                 +++ " not in index" +++ dq
       end;
     type_error_text := fun keys ascending =>
       match (if ascending then keys else rev keys) with
       | [] => EmptyString
       | c :: l =>
           match filter (fun x => negb (same_kind c x)) l with
           | [] => EmptyString
           | x :: _ => "'<' not supported between instances of '"
                       +++ type_name x +++ "' and '" +++ type_name c +++ "'"
           end
       end;
     to_markdown := fun _ => None |}.

(** The same installation without the tabulate package. *)
Definition import_error : exn :=
  Exn "ImportError"
      "Missing optional dependency 'tabulate'.  Use pip or conda to install tabulate.".

Definition no_tabulate : pandas :=
  {| key_error_text := key_error_text sample_pd;
     type_error_text := type_error_text sample_pd;
     to_markdown := fun _ => Some import_error |}.

Definition sample_upcoming : DataFrame :=
  MkFrame ["symbol"; "name"; "exchange"; "expected_date"; "price_low"; "price_high";
           "expected_shares_offered"]
    [ Row (Num 7) [Str "AAA"; Str "Alpha"; Str "NYSE"; Date 2025 3 1; Num 10; Num 12; Num 5];
      Row (Num 3) [Str "BBB"; Str "Beta"; Str "NASDAQ"; Date 2025 1 15; Num 20; Num 22; Num 8];
      Row (Num 9) [Str "CCC"; Str "Gamma"; Str "NYSE"; Date 2025 2 10; Num 15; Num 18; Num 3] ].

Definition sample_past : DataFrame :=
  MkFrame ["name"; "date"; "price"; "exchange"]
    [ Row (Num 0) [Str "Delta"; Date 2024 1 1; Num 17; Str "NYSE"];
      Row (Num 1) [Str "Epsilon"; Date 2024 6 1; Num 30; Str "NASDAQ"] ].

Definition sample_obb : OBB :=
  {| log_system_info := Ok tt;
     upcoming_ipo := fun _ => Ok {| to_dataframe := Ok sample_upcoming |};
     historical_ipo := fun _ => Ok {| to_dataframe := Ok sample_past |} |}.

(** A provider that cannot be reached for upcoming IPOs and whose past IPOs
    come without the price column. *)
Definition connection_error : exn := Exn "ConnectionError" "provider unreachable".

Definition sample_past_no_price : DataFrame :=
  MkFrame ["name"; "date"; "exchange"]
    [ Row (Num 0) [Str "Delta"; Date 2024 1 1; Str "NYSE"] ].

Definition failing_obb : OBB :=
  {| log_system_info := Raise connection_error;
     upcoming_ipo := fun _ => Raise connection_error;
     historical_ipo := fun _ => Ok {| to_dataframe := Ok sample_past_no_price |} |}.

(** A provider that fails on both calls. *)
Definition down_obb : OBB :=
  {| log_system_info := Raise connection_error;
     upcoming_ipo := fun _ => Raise connection_error;
     historical_ipo := fun _ => Raise connection_error |}.

(** A provider that answers both calls with headers and no rows. *)
Definition headers_upcoming : DataFrame :=
  MkFrame ["name"; "expected_date"; "expected_shares_offered"; "price_low"; "price_high";
           "exchange"] [].

Definition headers_past : DataFrame := MkFrame ["name"; "date"; "price"; "exchange"] [].

Definition quiet_obb : OBB :=
  {| log_system_info := Ok tt;
     upcoming_ipo := fun _ => Ok {| to_dataframe := Ok headers_upcoming |};
     historical_ipo := fun _ => Ok {| to_dataframe := Ok headers_past |} |}.

(** Past IPOs one of which has no date yet, with the name column twice, and
    with one date given as text. *)
Definition past_with_gap : DataFrame :=
  MkFrame ["name"; "date"; "price"; "exchange"]
    [ Row (Num 0) [Str "Delta"; Date 2024 1 1; Num 17; Str "NYSE"];
      Row (Num 1) [Str "Zeta"; NA; Num 21; Str "NYSE"];
      Row (Num 2) [Str "Epsilon"; Date 2024 6 1; Num 30; Str "NASDAQ"] ].

Definition past_doubled_name : DataFrame :=
  MkFrame ["name"; "name"; "date"; "price"; "exchange"]
    [ Row (Num 0) [Str "Delta"; Str "Delta Inc"; Date 2024 1 1; Num 17; Str "NYSE"] ].

Definition past_mixed_dates : DataFrame :=
  MkFrame ["name"; "date"; "price"; "exchange"]
    [ Row (Num 0) [Str "Delta"; Date 2024 1 1; Num 17; Str "NYSE"];
      Row (Num 1) [Str "Epsilon"; Str "2024-06-01"; Num 30; Str "NASDAQ"] ].

Definition answering (df : DataFrame) : OBB :=
  {| log_system_info := Ok tt;
     upcoming_ipo := fun _ => Ok {| to_dataframe := Ok df |};
     historical_ipo := fun _ => Ok {| to_dataframe := Ok df |} |}.

(** The upcoming IPOs of the first sample under another column order, with
    other extra columns and another index. *)
Definition sample_upcoming_shuffled : DataFrame :=
  MkFrame ["exchange"; "price_high"; "price_low"; "expected_shares_offered"; "cik";
           "expected_date"; "name"]
    [ Row (Str "a") [Str "NYSE"; Num 12; Num 10; Num 5; Num 1001; Date 2025 3 1; Str "Alpha"];
      Row (Str "b") [Str "NASDAQ"; Num 22; Num 20; Num 8; Num 1002; Date 2025 1 15; Str "Beta"];
      Row (Str "c") [Str "NYSE"; Num 18; Num 15; Num 3; Num 1003; Date 2025 2 10; Str "Gamma"] ].

(** Upcoming IPOs already in ascending date order and past IPOs already in
    descending date order. *)
Definition upcoming_in_order : DataFrame :=
  MkFrame ["name"; "expected_date"; "expected_shares_offered"; "price_low"; "price_high";
           "exchange"]
    [ Row (Num 4) [Str "Beta"; Date 2025 1 15; Num 8; Num 20; Num 22; Str "NASDAQ"];
      Row (Num 2) [Str "Gamma"; Date 2025 2 10; Num 3; Num 15; Num 18; Str "NYSE"];
      Row (Num 6) [Str "Alpha"; Date 2025 3 1; Num 5; Num 10; Num 12; Str "NYSE"] ].

Definition past_in_order : DataFrame :=
  MkFrame ["name"; "date"; "price"; "exchange"]
    [ Row (Num 5) [Str "Epsilon"; Date 2024 6 1; Num 30; Str "NASDAQ"];
      Row (Num 1) [Str "Delta"; Date 2024 1 1; Num 17; Str "NYSE"] ].

Definition upcoming_notice : item :=
  Text "No upcoming IPOs found for the specified limit.".

Definition past_notice : item :=
  Text "No recent past IPOs found for the specified limit.".

(** Providers with one call down: the other answers, the past one with the
    two sample rows, the upcoming one with headers only. *)
Definition upcoming_down_obb : OBB :=
  {| log_system_info := Ok tt;
     upcoming_ipo := fun _ => Raise connection_error;
     historical_ipo := fun _ => Ok {| to_dataframe := Ok sample_past |} |}.


(** Upcoming IPOs one of which has no expected date yet. *)
Definition upcoming_with_gap : DataFrame :=
  MkFrame ["name"; "expected_date"; "expected_shares_offered"; "price_low"; "price_high";
           "exchange"]
    [ Row (Num 0) [Str "Eta"; NA; Num 4; Num 9; Num 11; Str "NYSE"];
      Row (Num 1) [Str "Beta"; Date 2025 1 15; Num 8; Num 20; Num 22; Str "NASDAQ"] ].

Definition finished : item := Text (nl +++ "Script Finished.").

(** ** Vocabulary of the statements *)

(** The driver's display block for [df] runs through: there is nothing to
    show, or the table renders. *)
Definition displays (pd : pandas) (df : DataFrame) : bool :=
  empty df || match to_markdown pd df with None => true | Some _ => false end.

(** What a provider call hands to the query: the frame, or the exception of
    the call or of the conversion. *)
Definition answer (call : result OBBject) : result DataFrame :=
  match call with
  | Ok o => to_dataframe o
  | Raise e => Raise e
  end.

(** The first position of label [k], the header length when it is absent. *)
Fixpoint index_of (k : string) (cols : list string) : nat :=
  match cols with
  | [] => O
  | c :: cols' => if String.eqb c k then O else S (index_of k cols')
  end.

(** The cells of a provider row under the given fields, in that order. *)
Definition project_row (fields cols : list string) (r : row) : list cell :=
  map (fun k => nth (index_of k cols) (row_cells r) NA) fields.

(** The response contains the fields: each of them names one column. *)
Definition has_fields (fields : list string) (df : DataFrame) : bool :=
  forallb (fun k => Nat.eqb (count_occ string_dec (columns df) k) 1) fields.

(** The values present under field [k] are of one type, so that they can be
    ordered. *)
Definition ordered_field (k : string) (df : DataFrame) : bool :=
  homogeneous (filter notna (column k df)).

(** Every row has a value under field [k]. *)
Definition filled_field (k : string) (df : DataFrame) : bool :=
  forallb notna (column k df).

(** The steps of a query between the emptiness test and the return:
    select the fields, rename them, sort on one label, renumber the rows. *)
Definition reshape (pd : pandas) (fields labels : list string) (key : string)
    (ascending : bool) (df : DataFrame) : result DataFrame :=
  match getitem pd fields df with
  | Raise e => Raise e
  | Ok selected =>
      match set_columns labels selected with
      | Raise e => Raise e
      | Ok renamed =>
          match sort_values pd key ascending renamed with
          | Raise e => Raise e
          | Ok sorted => Ok (reset_index sorted)
          end
      end
  end.

(** The provider rows cut down to the fields, each with its own index label. *)
Definition projected (fields : list string) (df : DataFrame) : list row :=
  map (fun r => Row (row_label r) (project_row fields (columns df) r)) (rows df).

(** What a query prints after its banner when the try block raised [e]. *)
Definition failure_report (what : string) (e : exn) : list item :=
  [Text ("ERROR: Could not fetch " +++ what +++ " IPO data.");
   Text ("Please ensure the 'openbb' library is installed and initialized correctly. Details: "
         +++ exn_str e)].

Definition upcoming_banner (limit : Z) : item :=
  Text ("--- Fetching the next " +++ str limit +++ " Upcoming IPOs... ---").

Definition past_banner (limit : Z) : item :=
  Text (nl +++ "--- Fetching the last " +++ str limit +++ " Recent Past IPOs... ---").

(** 0, 1, ..., n-1 as index labels. *)
Definition range_index (n : nat) : list cell :=
  map (fun i => Num (Z.of_nat i)) (seq 0 n).

(** The provider with the outcome of its initialization hook replaced. *)
Definition with_hook (h : result unit) (obb : OBB) : OBB :=
  {| log_system_info := h;
     upcoming_ipo := upcoming_ipo obb;
     historical_ipo := historical_ipo obb |}.

(** * Properties *)

(** ** Runs on sample data *)

Example main_sample_exit : exit_code (main sample_pd sample_obb) = 0.
Proof. reflexivity. Qed.

Example main_sample_tables :
  filter (fun i => match i with Markdown _ => true | Text _ => false end)
         (fst (main sample_pd sample_obb))
  = [ Markdown
        (MkFrame upcoming_labels
           [ Row (Num 0) [Str "Beta"; Date 2025 1 15; Num 8; Num 20; Num 22; Str "NASDAQ"];
             Row (Num 1) [Str "Gamma"; Date 2025 2 10; Num 3; Num 15; Num 18; Str "NYSE"];
             Row (Num 2) [Str "Alpha"; Date 2025 3 1; Num 5; Num 10; Num 12; Str "NYSE"] ]);
      Markdown
        (MkFrame past_labels
           [ Row (Num 0) [Str "Epsilon"; Date 2024 6 1; Num 30; Str "NASDAQ"];
             Row (Num 1) [Str "Delta"; Date 2024 1 1; Num 17; Str "NYSE"] ]) ].
Proof. reflexivity. Qed.

Example main_down :
  main sample_pd down_obb
  = ([Text "--- Fetching the next 10 Upcoming IPOs... ---";
      Text "ERROR: Could not fetch upcoming IPO data.";
      Text "Please ensure the 'openbb' library is installed and initialized correctly. Details: provider unreachable";
      past_banner 10;
      Text "ERROR: Could not fetch past IPO data.";
      Text "Please ensure the 'openbb' library is installed and initialized correctly. Details: provider unreachable";
      finished], Ok tt).
Proof. reflexivity. Qed.

(** A row without a date is kept and comes last, also in the descending
    order of the past query. *)
Example past_gap_last :
  option_map (column "IPO Date")
    (match snd (get_past_ipos sample_pd (answering past_with_gap) 10) with
     | Ok res => Some res
     | Raise _ => None
     end)
  = Some [Date 2024 6 1; Date 2024 1 1; NA].
Proof. reflexivity. Qed.

(** A field that names two columns, or dates of two types, end in the
    query's error report: the renaming and the sort raise. *)
Example past_doubled_name_reported :
  get_past_ipos sample_pd (answering past_doubled_name) 10
  = (past_banner 10
       :: failure_report "past"
            (Exn "ValueError"
               "Length mismatch: Expected axis has 5 elements, new values have 4 elements"),
     Ok new_frame).
Proof. reflexivity. Qed.

Example past_mixed_dates_reported :
  get_past_ipos sample_pd (answering past_mixed_dates) 10
  = (past_banner 10
       :: failure_report "past"
            (Exn "TypeError"
               (type_error_text sample_pd [Date 2024 1 1; Str "2024-06-01"] false)),
     Ok new_frame).
Proof. reflexivity. Qed.

(** Without the tabulate package the run ends at the first table: the title
    is the last line printed and the exit code is 1. *)
Example main_no_tabulate :
  main no_tabulate sample_obb
  = ([Text "--- Fetching the next 10 Upcoming IPOs... ---";
      Text (nl +++ str_mul "=" 70);
      Text "Upcoming IPOs:"], Raise import_error) /\
  exit_code (main no_tabulate sample_obb) = 1.
Proof. split; reflexivity. Qed.

(** ** The order of cells *)

Section CellOrder.

Lemma date_compare_antisym y1 m1 d1 y2 m2 d2 :
  date_compare y2 m2 d2 y1 m1 d1 = CompOpp (date_compare y1 m1 d1 y2 m2 d2).
Proof.
  unfold date_compare.
  rewrite (Z.compare_antisym y1 y2), (Z.compare_antisym m1 m2), (Z.compare_antisym d1 d2).
  destruct (y1 ?= y2); simpl; try reflexivity.
  destruct (m1 ?= m2); simpl; reflexivity.
Qed.

Lemma compare_antisym (a b : cell) :
  compare b a = option_map CompOpp (compare a b).
Proof.
  destruct a, b; simpl; try reflexivity.
  - now rewrite String.compare_antisym.
  - now rewrite Z.compare_antisym.
  - now rewrite date_compare_antisym.
Qed.

Lemma ltb_asym (a b : cell) : ltb a b = true -> ltb b a = false.
Proof.
  unfold ltb. rewrite (compare_antisym a b).
  destruct (compare a b) as [[]|]; simpl; congruence.
Qed.

Lemma not_ltb_leb (a b : cell) :
  same_kind a b = true -> ltb b a = false -> leb a b = true.
Proof.
  unfold same_kind, ltb, leb. rewrite (compare_antisym a b).
  destruct (compare a b) as [[]|]; simpl; congruence.
Qed.

Lemma string_le_trans (s t u : string) :
  String.compare s t <> Gt -> String.compare t u <> Gt -> String.compare s u <> Gt.
Proof.
  intros H1 H2 H3.
  assert (L : forall a b, String.compare a b <> Gt -> String_as_OT.lt a b \/ a = b).
  { intros a b H. destruct (String.compare a b) eqn:E.
    - right. now apply String.compare_eq_iff.
    - left. now apply String_as_OT.cmp_lt.
    - congruence. }
  assert (G : String_as_OT.lt u s).
  { apply String_as_OT.cmp_lt. unfold String_as_OT.cmp.
    rewrite String.compare_antisym, H3. reflexivity. }
  destruct (L _ _ H1) as [A|A], (L _ _ H2) as [B|B]; subst.
  - apply (String_as_OT.lt_not_eq s s); [|reflexivity].
    eapply String_as_OT.lt_trans; [exact A|]. eapply String_as_OT.lt_trans; eassumption.
  - apply (String_as_OT.lt_not_eq s s); [|reflexivity].
    eapply String_as_OT.lt_trans; eassumption.
  - apply (String_as_OT.lt_not_eq u u); [|reflexivity].
    eapply String_as_OT.lt_trans; eassumption.
  - apply (String_as_OT.lt_not_eq u u); [exact G | reflexivity].
Qed.

Lemma date_compare_le y1 m1 d1 y2 m2 d2 :
  date_compare y1 m1 d1 y2 m2 d2 <> Gt <->
  (y1 < y2 \/ (y1 = y2 /\ (m1 < m2 \/ (m1 = m2 /\ d1 <= d2)))).
Proof.
  unfold date_compare.
  destruct (Z.compare_spec y1 y2); [destruct (Z.compare_spec m1 m2);
    [destruct (Z.compare_spec d1 d2)| |] | |];
    (split; [intros H'; try lia; try congruence | intros H'; try discriminate; lia]).
Qed.

Lemma leb_trans (a b c : cell) :
  leb a b = true -> leb b c = true -> leb a c = true.
Proof.
  assert (E : forall x, match x with Lt | Eq => true | Gt => false end = true <-> x <> Gt).
  { intros []; split; congruence. }
  unfold leb. destruct a, b; simpl; try discriminate; destruct c; simpl; try discriminate;
    rewrite !E.
  - apply string_le_trans.
  - rewrite !Z.compare_le_iff. lia.
  - rewrite !date_compare_le. lia.
Qed.

Lemma same_kind_trans (a b c : cell) :
  same_kind a b = true -> same_kind a c = true -> same_kind b c = true.
Proof.
  unfold same_kind.
  destruct a, b; simpl; try discriminate; destruct c; simpl; intros; congruence.
Qed.

End CellOrder.

(** ** Sorted lists *)

Section SortedLists.

Context {A : Type}.

Lemma Sorted_weaken (R R' : A -> A -> Prop) (l : list A) :
  (forall x y, In x l -> In y l -> R x y -> R' x y) ->
  Sorted R l -> Sorted R' l.
Proof.
  intros W H. induction H as [|a l Hs IH Hd]; constructor.
  - apply IH. intros x y Hx Hy. apply W; now right.
  - destruct Hd as [|b l Hab]; constructor.
    apply W; simpl; auto.
Qed.

Lemma StronglySorted_app (R : A -> A -> Prop) (l1 l2 : list A) :
  StronglySorted R l1 -> StronglySorted R l2 ->
  (forall x y, In x l1 -> In y l2 -> R x y) ->
  StronglySorted R (l1 ++ l2).
Proof.
  intros H1 H2 C. induction H1 as [|a l H1 IH Ha]; simpl; [exact H2|].
  constructor.
  - apply IH. intros x y Hx Hy. apply C; [now right | exact Hy].
  - apply Forall_app. split; [exact Ha|].
    apply Forall_forall. intros y Hy. apply C; [now left | exact Hy].
Qed.

Lemma StronglySorted_rev (R : A -> A -> Prop) (l : list A) :
  StronglySorted R l -> StronglySorted (fun x y => R y x) (rev l).
Proof.
  induction 1 as [|a l Hs IH Ha]; simpl; [constructor|].
  apply StronglySorted_app.
  - exact IH.
  - repeat constructor.
  - intros x y Hx [<-|[]]. apply in_rev in Hx.
    rewrite Forall_forall in Ha. now apply Ha.
Qed.

Lemma StronglySorted_nth (R : A -> A -> Prop) (l : list A) :
  StronglySorted R l ->
  forall i j a b, (i < j)%nat ->
    nth_error l i = Some a -> nth_error l j = Some b -> R a b.
Proof.
  induction 1 as [|x l Hs IH Hx]; intros i j a b Hij Hi Hj.
  - destruct i; discriminate.
  - destruct j as [|j]; [lia|]. simpl in Hj.
    destruct i as [|i]; simpl in Hi.
    + injection Hi as <-. rewrite Forall_forall in Hx.
      apply Hx. eapply nth_error_In; eassumption.
    + apply (IH i j); [lia | assumption | assumption].
Qed.

End SortedLists.

Lemma StronglySorted_map {A B : Type} (f : A -> B) (R : B -> B -> Prop) (l : list A) :
  StronglySorted (fun x y => R (f x) (f y)) l -> StronglySorted R (map f l).
Proof.
  induction 1 as [|a l Hs IH Ha]; simpl; constructor.
  - exact IH.
  - rewrite Forall_map. exact Ha.
Qed.

(** ** The sort of [sort_values] *)

Section Sorting.

Variable p : nat.

Lemma insert_perm (r : row) (l : list row) : Permutation (insert p r l) (r :: l).
Proof.
  induction l as [|x l IH]; simpl; [reflexivity|].
  destruct (ltb (cell_at p x) (cell_at p r)); [|reflexivity].
  rewrite IH. apply perm_swap.
Qed.

Lemma isort_perm (l : list row) : Permutation (isort p l) l.
Proof.
  induction l as [|r l IH]; simpl; [reflexivity|].
  rewrite insert_perm. now constructor.
Qed.

Lemma insert_sorted (r : row) (l : list row) :
  Sorted (fun x y => ltb (cell_at p y) (cell_at p x) = false) l ->
  Sorted (fun x y => ltb (cell_at p y) (cell_at p x) = false) (insert p r l).
Proof.
  induction 1 as [|x l Hs IH Hx]; simpl; [repeat constructor|].
  destruct (ltb (cell_at p x) (cell_at p r)) eqn:E.
  - constructor; [exact IH|].
    destruct Hx as [|y l Hxy]; simpl.
    + constructor. now apply ltb_asym.
    + destruct (ltb (cell_at p y) (cell_at p r)); constructor;
        [exact Hxy | now apply ltb_asym].
  - constructor; [now constructor | now constructor].
Qed.

Lemma isort_sorted (l : list row) :
  Sorted (fun x y => ltb (cell_at p y) (cell_at p x) = false) (isort p l).
Proof.
  induction l as [|r l IH]; simpl; [constructor | now apply insert_sorted].
Qed.

Lemma homogeneous_pairs (l : list cell) :
  forallb notna l = true -> homogeneous l = true ->
  forall x y, In x l -> In y l -> same_kind x y = true.
Proof.
  destruct l as [|c l]; [intros _ _ x y []|].
  simpl. intros Hn Hh. apply andb_prop in Hn as [Hc _].
  rewrite forallb_forall in Hh.
  assert (Hcc : same_kind c c = true).
  { destruct c; simpl in *; try reflexivity; discriminate. }
  assert (K : forall x, c = x \/ In x l -> same_kind c x = true).
  { intros x [<-|Hx]; [exact Hcc | now apply Hh]. }
  intros x y Hx Hy. apply (same_kind_trans c); now apply K.
Qed.

(** Rows whose keys can be compared with one another come out of the sort in
    non-decreasing order of the key. *)
Lemma isort_ascending (l : list row) :
  (forall x y, In x l -> In y l -> same_kind (cell_at p x) (cell_at p y) = true) ->
  StronglySorted (fun x y => leb (cell_at p x) (cell_at p y) = true) (isort p l).
Proof.
  intros Hk.
  apply Sorted_StronglySorted.
  - intros x y z. apply leb_trans.
  - apply (Sorted_weaken (fun x y => ltb (cell_at p y) (cell_at p x) = false));
      [|apply isort_sorted].
    intros x y Hx Hy. apply not_ltb_leb.
    apply Hk; eapply Permutation_in; try eassumption; apply isort_perm.
Qed.

End Sorting.

Lemma filter_split_perm {A : Type} (f : A -> bool) (l : list A) :
  Permutation (filter (fun x => negb (f x)) l ++ filter f l) l.
Proof.
  induction l as [|a l IH]; simpl; [reflexivity|].
  destruct (f a); simpl.
  - rewrite <- Permutation_middle. now constructor.
  - now constructor.
Qed.

Lemma filter_all {A : Type} (f : A -> bool) (l : list A) :
  forallb f l = true -> filter f l = l.
Proof.
  induction l as [|a l IH]; simpl; [reflexivity|].
  intros H. apply andb_prop in H as [Ha Hl]. rewrite Ha, IH; auto.
Qed.

Lemma filter_none {A : Type} (f : A -> bool) (l : list A) :
  forallb (fun x => negb (f x)) l = true -> filter f l = [].
Proof.
  induction l as [|a l IH]; simpl; [reflexivity|].
  intros H. apply andb_prop in H as [Ha Hl].
  apply negb_true_iff in Ha. rewrite Ha. auto.
Qed.

Lemma nargsort_perm (p : nat) (ascending : bool) (rs : list row) :
  Permutation (nargsort p ascending rs) rs.
Proof.
  unfold nargsort, notna.
  eapply Permutation_trans; [|apply (filter_split_perm (fun r => isna (cell_at p r)) rs)].
  apply Permutation_app_tail.
  destruct ascending.
  - apply isort_perm.
  - eapply Permutation_trans; [symmetry; apply Permutation_rev|].
    eapply Permutation_trans; [apply isort_perm|].
    symmetry. apply Permutation_rev.
Qed.

Lemma nargsort_length (p : nat) (ascending : bool) (rs : list row) :
  List.length (nargsort p ascending rs) = List.length rs.
Proof. apply Permutation_length, nargsort_perm. Qed.

(** When every row has a key, nothing is set aside. *)
Lemma nargsort_filled (p : nat) (ascending : bool) (rs : list row) :
  forallb notna (map (cell_at p) rs) = true ->
  nargsort p ascending rs =
  if ascending then isort p rs else rev (isort p (rev rs)).
Proof.
  intros H.
  assert (H' : forallb (fun r => notna (cell_at p r)) rs = true).
  { apply forallb_forall. intros r Hr.
    rewrite forallb_forall in H. apply H. now apply in_map. }
  unfold nargsort.
  rewrite (filter_all _ _ H'), (filter_none (fun r => isna (cell_at p r))), app_nil_r; auto.
Qed.

(** ** Renumbering *)

Lemma relabel_cells (i : Z) (rs : list row) :
  map row_cells (relabel i rs) = map row_cells rs.
Proof.
  revert i. induction rs as [|r rs IH]; intros i; simpl; [reflexivity|].
  now rewrite IH.
Qed.

Lemma relabel_cell_at (p : nat) (i : Z) (rs : list row) :
  map (cell_at p) (relabel i rs) = map (cell_at p) rs.
Proof.
  revert i. induction rs as [|r rs IH]; intros i; simpl; [reflexivity|].
  now rewrite IH.
Qed.

Lemma relabel_labels (i : nat) (rs : list row) :
  map row_label (relabel (Z.of_nat i) rs) =
  map (fun n => Num (Z.of_nat n)) (seq i (List.length rs)).
Proof.
  revert i. induction rs as [|r rs IH]; intros i; simpl; [reflexivity|].
  f_equal. rewrite <- IH. do 2 f_equal. lia.
Qed.

Lemma relabel_length (i : Z) (rs : list row) :
  List.length (relabel i rs) = List.length rs.
Proof.
  revert i. induction rs as [|r rs IH]; intros i; simpl; [reflexivity|].
  now rewrite IH.
Qed.

(** ** Locating the fields *)

Lemma positions_from_length (i : nat) (k : string) (cols : list string) :
  List.length (positions_from i k cols) = count_occ string_dec cols k.
Proof.
  revert i. induction cols as [|c cols IH]; intros i; simpl; [reflexivity|].
  destruct (String.eqb_spec c k), (string_dec c k); try congruence; simpl; now rewrite IH.
Qed.

Lemma positions_from_once (i : nat) (k : string) (cols : list string) :
  count_occ string_dec cols k = 1%nat ->
  positions_from i k cols = [(i + index_of k cols)%nat].
Proof.
  revert i. induction cols as [|c cols IH]; intros i; simpl; [discriminate|].
  destruct (String.eqb_spec c k), (string_dec c k); try congruence; intros H.
  - injection H as H. rewrite <- (positions_from_length (S i)) in H.
    apply length_zero_iff_nil in H. rewrite H. f_equal. lia.
  - rewrite (IH (S i) H). f_equal. lia.
Qed.

Lemma positions_once (k : string) (cols : list string) :
  count_occ string_dec cols k = 1%nat -> positions cols k = [index_of k cols].
Proof. intros H. unfold positions. now rewrite (positions_from_once 0 k cols H). Qed.

Lemma present_once (k : string) (cols : list string) :
  count_occ string_dec cols k = 1%nat -> existsb (String.eqb k) cols = true.
Proof.
  intros H. apply existsb_exists. exists k. split; [|apply String.eqb_refl].
  apply (count_occ_In string_dec). lia.
Qed.

Lemma has_fields_In (fields : list string) (df : DataFrame) (k : string) :
  has_fields fields df = true -> In k fields ->
  count_occ string_dec (columns df) k = 1%nat.
Proof.
  unfold has_fields. rewrite forallb_forall. intros H Hk.
  apply Nat.eqb_eq. now apply H.
Qed.

Lemma column_once (k : string) (df : DataFrame) :
  count_occ string_dec (columns df) k = 1%nat ->
  column k df = map (cell_at (index_of k (columns df))) (rows df).
Proof. intros H. unfold column. now rewrite (positions_once _ _ H). Qed.

Lemma getitem_fields (pd : pandas) (fields : list string) (df : DataFrame) :
  has_fields fields df = true ->
  getitem pd fields df = Ok (MkFrame fields (projected fields df)).
Proof.
  intros H. unfold getitem.
  assert (M : filter (fun k => negb (existsb (String.eqb k) (columns df))) fields = []).
  { apply filter_none. apply forallb_forall. intros k Hk.
    rewrite negb_involutive. apply present_once. eapply has_fields_In; eassumption. }
  rewrite M.
  assert (P : flat_map (positions (columns df)) fields
              = map (fun k => index_of k (columns df)) fields).
  { assert (G : forall k, In k fields -> count_occ string_dec (columns df) k = 1%nat)
      by (intros; eapply has_fields_In; eassumption).
    clear H M. induction fields as [|k fields IH]; simpl; [reflexivity|].
    rewrite (positions_once k); [|apply G; now left].
    simpl. f_equal. apply IH. intros; apply G; now right. }
  rewrite P. unfold take, projected, project_row, cell_at. f_equal. f_equal.
  - rewrite map_map.
    assert (G : forall k, In k fields -> count_occ string_dec (columns df) k = 1%nat)
      by (intros; eapply has_fields_In; eassumption).
    clear H M P. induction fields as [|k fields IH]; simpl; [reflexivity|].
    f_equal; [|apply IH; intros; apply G; now right].
    assert (Hk : In k (columns df)).
    { apply (count_occ_In string_dec). rewrite G; [lia | now left]. }
    clear G IH. induction (columns df) as [|c cols IHc]; [destruct Hk|].
    simpl. destruct (String.eqb_spec c k); [assumption|].
    apply IHc. destruct Hk; congruence.
  - apply map_ext. intros r. now rewrite map_map.
Qed.

(** ** The reshaping steps *)

Lemma projected_key (fields : list string) (df : DataFrame) (j : nat) (kf : string) :
  nth_error fields j = Some kf ->
  map (cell_at j) (projected fields df)
  = map (cell_at (index_of kf (columns df))) (rows df).
Proof.
  intros H. unfold projected. rewrite map_map. apply map_ext. intros r.
  unfold cell_at, project_row; simpl.
  apply nth_error_nth. rewrite nth_error_map, H. reflexivity.
Qed.

Lemma reshape_fields (pd : pandas) (fields labels : list string) (key : string) (ascending : bool)
    (j : nat) (kf : string) (df : DataFrame) :
  has_fields fields df = true ->
  List.length labels = List.length fields ->
  positions labels key = [j] ->
  nth_error fields j = Some kf ->
  ordered_field kf df = true ->
  reshape pd fields labels key ascending df
  = Ok (MkFrame labels (relabel 0 (nargsort j ascending (projected fields df)))).
Proof.
  intros Hf Hl Hp Hj Ho. unfold reshape.
  rewrite (getitem_fields pd _ _ Hf). unfold set_columns; simpl.
  rewrite Hl, Nat.eqb_refl. unfold sort_values; simpl. rewrite Hp.
  rewrite (projected_key _ _ _ _ Hj).
  unfold ordered_field in Ho. rewrite column_once in Ho.
  - rewrite Ho. reflexivity.
  - apply (has_fields_In fields); [exact Hf|]. eapply nth_error_In; eassumption.
Qed.

(** ** The queries, case by case *)

Lemma get_upcoming_ipos_cases (pd : pandas) (obb : OBB) (limit : Z) :
  get_upcoming_ipos pd obb limit =
  match answer (upcoming_ipo obb limit) with
  | Raise e => (upcoming_banner limit :: failure_report "upcoming" e, Ok new_frame)
  | Ok df =>
      if empty df
      then ([upcoming_banner limit;
             Text "No upcoming IPOs found for the specified limit."], Ok df)
      else match reshape pd upcoming_fields upcoming_labels "Expected Date" true df with
           | Ok res => ([upcoming_banner limit], Ok res)
           | Raise e => (upcoming_banner limit :: failure_report "upcoming" e, Ok new_frame)
           end
  end.
Proof.
  unfold get_upcoming_ipos, reshape.
  destruct (upcoming_ipo obb limit) as [o|e]; simpl; [|reflexivity].
  destruct (to_dataframe o) as [df|e]; simpl; [|reflexivity].
  destruct (empty df); simpl; [reflexivity|].
  destruct (getitem pd upcoming_fields df) as [d1|e]; simpl; [|reflexivity].
  destruct (set_columns upcoming_labels d1) as [d2|e]; simpl; [|reflexivity].
  destruct (sort_values pd "Expected Date" true d2) as [d3|e]; reflexivity.
Qed.

Lemma get_past_ipos_cases (pd : pandas) (obb : OBB) (limit : Z) :
  get_past_ipos pd obb limit =
  match answer (historical_ipo obb limit) with
  | Raise e => (past_banner limit :: failure_report "past" e, Ok new_frame)
  | Ok df =>
      if empty df
      then ([past_banner limit;
             Text "No recent past IPOs found for the specified limit."], Ok df)
      else match reshape pd past_fields past_labels "IPO Date" false df with
           | Ok res => ([past_banner limit], Ok res)
           | Raise e => (past_banner limit :: failure_report "past" e, Ok new_frame)
           end
  end.
Proof.
  unfold get_past_ipos, reshape.
  destruct (historical_ipo obb limit) as [o|e]; simpl; [|reflexivity].
  destruct (to_dataframe o) as [df|e]; simpl; [|reflexivity].
  destruct (empty df); simpl; [reflexivity|].
  destruct (getitem pd past_fields df) as [d1|e]; simpl; [|reflexivity].
  destruct (set_columns past_labels d1) as [d2|e]; simpl; [|reflexivity].
  destruct (sort_values pd "IPO Date" false d2) as [d3|e]; reflexivity.
Qed.

Lemma not_empty (fields : list string) (df : DataFrame) (k : string) :
  has_fields (k :: fields) df = true -> rows df <> [] -> empty df = false.
Proof.
  intros H Hr. unfold empty.
  destruct (columns df) eqn:E.
  - simpl in H. rewrite E in H. discriminate.
  - destruct (rows df); [congruence | reflexivity].
Qed.

(** The successful run of each query on a response with rows and fields. *)
Lemma get_upcoming_ipos_rows (pd : pandas) (obb : OBB) (limit : Z) (df : DataFrame) :
  answer (upcoming_ipo obb limit) = Ok df ->
  rows df <> [] ->
  has_fields upcoming_fields df = true ->
  ordered_field "expected_date" df = true ->
  get_upcoming_ipos pd obb limit =
  ([upcoming_banner limit],
   Ok (MkFrame upcoming_labels
         (relabel 0 (nargsort 1 true (projected upcoming_fields df))))).
Proof.
  intros Ha Hr Hf Ho. rewrite get_upcoming_ipos_cases, Ha.
  rewrite (not_empty _ _ _ Hf Hr).
  rewrite (reshape_fields pd _ _ _ _ 1%nat "expected_date" df); auto.
Qed.

Lemma get_past_ipos_rows (pd : pandas) (obb : OBB) (limit : Z) (df : DataFrame) :
  answer (historical_ipo obb limit) = Ok df ->
  rows df <> [] ->
  has_fields past_fields df = true ->
  ordered_field "date" df = true ->
  get_past_ipos pd obb limit =
  ([past_banner limit],
   Ok (MkFrame past_labels
         (relabel 0 (nargsort 1 false (projected past_fields df))))).
Proof.
  intros Ha Hr Hf Ho. rewrite get_past_ipos_cases, Ha.
  rewrite (not_empty _ _ _ Hf Hr).
  rewrite (reshape_fields pd _ _ _ _ 1%nat "date" df); auto.
Qed.

(** ** Order of the returned rows *)

Lemma nargsort_ordered (fields : list string) (df : DataFrame) (j : nat) (kf : string)
    (ascending : bool) :
  nth_error fields j = Some kf ->
  has_fields fields df = true ->
  ordered_field kf df = true ->
  filled_field kf df = true ->
  StronglySorted (fun a b => if ascending then leb a b = true else leb b a = true)
    (map (cell_at j) (nargsort j ascending (projected fields df))).
Proof.
  intros Hj Hf Ho Hn.
  assert (Hc : count_occ string_dec (columns df) kf = 1%nat).
  { apply (has_fields_In fields); [exact Hf|]. eapply nth_error_In; eassumption. }
  unfold ordered_field, filled_field in *.
  rewrite (column_once _ _ Hc), <- (projected_key fields df j kf Hj) in Ho, Hn.
  rewrite (filter_all _ _ Hn) in Ho.
  assert (Hk : forall x y, In x (projected fields df) -> In y (projected fields df) ->
                           same_kind (cell_at j x) (cell_at j y) = true).
  { intros x y Hx Hy. apply (homogeneous_pairs _ Hn Ho); now apply in_map. }
  rewrite (nargsort_filled _ _ _ Hn). apply StronglySorted_map.
  destruct ascending.
  - now apply isort_ascending.
  - apply (StronglySorted_rev (fun x y => leb (cell_at j x) (cell_at j y) = true)).
    apply isort_ascending. intros x y Hx Hy. apply Hk; now apply in_rev.
Qed.

Lemma column_of_result (labels : list string) (key : string) (j : nat) (rs : list row) :
  positions labels key = [j] ->
  column key (MkFrame labels (relabel 0 rs)) = map (cell_at j) rs.
Proof. intros H. unfold column; simpl. rewrite H. apply relabel_cell_at. Qed.

(** * The claims *)

(** C1. For a provider response with at least one row that contains the
    required fields (each field names one column, and the dates present are
    of one type so that they can be ordered), the upcoming query returns a
    table whose columns are exactly Company Name, Expected Date,
    Shares Offered (M), Price Low ($), Price High ($), Exchange, in that
    order, and the past query one whose columns are exactly Company Name,
    IPO Date, IPO Price ($), Exchange, in that order. *)
Theorem query_columns (pd : pandas) (obb : OBB) (limit : Z) :
  (forall df,
      answer (upcoming_ipo obb limit) = Ok df ->
      rows df <> [] ->
      has_fields upcoming_fields df = true ->
      ordered_field "expected_date" df = true ->
      exists out res,
        get_upcoming_ipos pd obb limit = (out, Ok res) /\
        columns res =
          ["Company Name"; "Expected Date"; "Shares Offered (M)"; "Price Low ($)";
           "Price High ($)"; "Exchange"]) /\
  (forall df,
      answer (historical_ipo obb limit) = Ok df ->
      rows df <> [] ->
      has_fields past_fields df = true ->
      ordered_field "date" df = true ->
      exists out res,
        get_past_ipos pd obb limit = (out, Ok res) /\
        columns res = ["Company Name"; "IPO Date"; "IPO Price ($)"; "Exchange"]).
Proof.
  split; intros df Ha Hr Hf Ho.
  - rewrite (get_upcoming_ipos_rows pd _ _ _ Ha Hr Hf Ho). eauto.
  - rewrite (get_past_ipos_rows pd _ _ _ Ha Hr Hf Ho). eauto.
Qed.

Lemma query_columns_witness :
  (exists out res,
      get_upcoming_ipos sample_pd sample_obb 10 = (out, Ok res) /\
      columns res =
        ["Company Name"; "Expected Date"; "Shares Offered (M)"; "Price Low ($)";
         "Price High ($)"; "Exchange"]) /\
  (exists out res,
      get_past_ipos sample_pd sample_obb 10 = (out, Ok res) /\
      columns res = ["Company Name"; "IPO Date"; "IPO Price ($)"; "Exchange"]).
Proof.
  split.
  - apply (proj1 (query_columns sample_pd sample_obb 10) sample_upcoming);
      [reflexivity | discriminate | reflexivity | reflexivity].
  - apply (proj2 (query_columns sample_pd sample_obb 10) sample_past);
      [reflexivity | discriminate | reflexivity | reflexivity].
Defined.

(** C7. For a non-empty provider response that contains the required fields,
    the table each query returns carries the index 0, 1, ..., n-1, where n is
    the number of provider rows, whatever the provider's index labels and row
    order were. *)
Theorem fresh_index (pd : pandas) (obb : OBB) (limit : Z) :
  (forall df,
      answer (upcoming_ipo obb limit) = Ok df ->
      rows df <> [] ->
      has_fields upcoming_fields df = true ->
      ordered_field "expected_date" df = true ->
      exists out res,
        get_upcoming_ipos pd obb limit = (out, Ok res) /\
        index res = range_index (List.length (rows df))) /\
  (forall df,
      answer (historical_ipo obb limit) = Ok df ->
      rows df <> [] ->
      has_fields past_fields df = true ->
      ordered_field "date" df = true ->
      exists out res,
        get_past_ipos pd obb limit = (out, Ok res) /\
        index res = range_index (List.length (rows df))).
Proof.
  split; intros df Ha Hr Hf Ho.
  - rewrite (get_upcoming_ipos_rows pd _ _ _ Ha Hr Hf Ho).
    do 2 eexists. split; [reflexivity|].
    unfold index, range_index; simpl. rewrite (relabel_labels 0).
    rewrite nargsort_length. unfold projected. now rewrite length_map.
  - rewrite (get_past_ipos_rows pd _ _ _ Ha Hr Hf Ho).
    do 2 eexists. split; [reflexivity|].
    unfold index, range_index; simpl. rewrite (relabel_labels 0).
    rewrite nargsort_length. unfold projected. now rewrite length_map.
Qed.

Lemma fresh_index_witness :
  (exists out res,
      get_upcoming_ipos sample_pd sample_obb 10 = (out, Ok res) /\
      index res = [Num 0; Num 1; Num 2]) /\
  (exists out res,
      get_past_ipos sample_pd sample_obb 10 = (out, Ok res) /\
      index res = [Num 0; Num 1]).
Proof.
  split.
  - apply (proj1 (fresh_index sample_pd sample_obb 10) sample_upcoming);
      [reflexivity | discriminate | reflexivity | reflexivity].
  - apply (proj2 (fresh_index sample_pd sample_obb 10) sample_past);
      [reflexivity | discriminate | reflexivity | reflexivity].
Defined.

(** C9. For a non-empty provider response that contains the required fields,
    the rows each query returns are a permutation of the provider rows
    projected to the fields and carried under the new labels: as many rows as
    the provider gave, with the same multiset of row values. *)
Theorem rows_permuted (pd : pandas) (obb : OBB) (limit : Z) :
  (forall df,
      answer (upcoming_ipo obb limit) = Ok df ->
      rows df <> [] ->
      has_fields upcoming_fields df = true ->
      ordered_field "expected_date" df = true ->
      exists out res,
        get_upcoming_ipos pd obb limit = (out, Ok res) /\
        columns res = upcoming_labels /\
        List.length (rows res) = List.length (rows df) /\
        Permutation (map row_cells (rows res))
                    (map (project_row upcoming_fields (columns df)) (rows df))) /\
  (forall df,
      answer (historical_ipo obb limit) = Ok df ->
      rows df <> [] ->
      has_fields past_fields df = true ->
      ordered_field "date" df = true ->
      exists out res,
        get_past_ipos pd obb limit = (out, Ok res) /\
        columns res = past_labels /\
        List.length (rows res) = List.length (rows df) /\
        Permutation (map row_cells (rows res))
                    (map (project_row past_fields (columns df)) (rows df))).
Proof.
  assert (P : forall fields df j asc,
             Permutation (map row_cells (relabel 0 (nargsort j asc (projected fields df))))
                         (map (project_row fields (columns df)) (rows df))).
  { intros fields df j asc. rewrite relabel_cells.
    eapply Permutation_trans; [apply Permutation_map, nargsort_perm|].
    unfold projected. rewrite map_map. reflexivity. }
  split; intros df Ha Hr Hf Ho.
  - rewrite (get_upcoming_ipos_rows pd _ _ _ Ha Hr Hf Ho).
    do 2 eexists. split; [reflexivity|]. simpl. repeat split.
    + rewrite relabel_length, nargsort_length. unfold projected. now rewrite length_map.
    + apply P.
  - rewrite (get_past_ipos_rows pd _ _ _ Ha Hr Hf Ho).
    do 2 eexists. split; [reflexivity|]. simpl. repeat split.
    + rewrite relabel_length, nargsort_length. unfold projected. now rewrite length_map.
    + apply P.
Qed.

Lemma rows_permuted_witness :
  (exists out res,
      get_upcoming_ipos sample_pd sample_obb 10 = (out, Ok res) /\
      columns res = upcoming_labels /\
      List.length (rows res) = 3%nat /\
      Permutation (map row_cells (rows res))
                  (map (project_row upcoming_fields (columns sample_upcoming))
                       (rows sample_upcoming))) /\
  (exists out res,
      get_past_ipos sample_pd sample_obb 10 = (out, Ok res) /\
      columns res = past_labels /\
      List.length (rows res) = 2%nat /\
      Permutation (map row_cells (rows res))
                  (map (project_row past_fields (columns sample_past)) (rows sample_past))).
Proof.
  split.
  - apply (proj1 (rows_permuted sample_pd sample_obb 10) sample_upcoming);
      [reflexivity | discriminate | reflexivity | reflexivity].
  - apply (proj2 (rows_permuted sample_pd sample_obb 10) sample_past);
      [reflexivity | discriminate | reflexivity | reflexivity].
Defined.

(** C6. For a provider response of three upcoming IPOs with expected dates
    2025-03-01, 2025-01-15, 2025-02-10 and all required fields, the upcoming
    query with limit 10 returns exactly three rows, ordered 2025-01-15,
    2025-02-10, 2025-03-01, under exactly the six renamed columns. *)
Theorem upcoming_example (pd : pandas) (obb : OBB) (df : DataFrame) :
  answer (upcoming_ipo obb 10) = Ok df ->
  has_fields upcoming_fields df = true ->
  column "expected_date" df = [Date 2025 3 1; Date 2025 1 15; Date 2025 2 10] ->
  exists out res,
    get_upcoming_ipos pd obb 10 = (out, Ok res) /\
    columns res =
      ["Company Name"; "Expected Date"; "Shares Offered (M)"; "Price Low ($)";
       "Price High ($)"; "Exchange"] /\
    List.length (rows res) = 3%nat /\
    column "Expected Date" res = [Date 2025 1 15; Date 2025 2 10; Date 2025 3 1].
Proof.
  intros Ha Hf Hc.
  assert (Ho : ordered_field "expected_date" df = true).
  { unfold ordered_field. rewrite Hc. reflexivity. }
  pose proof Hc as Hc'.
  rewrite column_once in Hc'
    by (apply (has_fields_In upcoming_fields); [exact Hf | simpl; tauto]).
  destruct (rows df) as [|r1 [|r2 [|r3 [|r4 rs]]]] eqn:Er; try discriminate.
  injection Hc' as H1 H2 H3.
  rewrite (get_upcoming_ipos_rows pd _ _ _ Ha) by (auto; rewrite Er; discriminate).
  do 2 eexists. split; [reflexivity|]. split; [reflexivity|].
  rewrite (column_of_result _ _ 1%nat) by reflexivity.
  unfold projected. rewrite Er.
  unfold nargsort, cell_at in *. simpl. rewrite H1, H2, H3. simpl.
  split; reflexivity.
Qed.

Lemma upcoming_example_witness :
  exists out res,
    get_upcoming_ipos sample_pd sample_obb 10 = (out, Ok res) /\
    columns res =
      ["Company Name"; "Expected Date"; "Shares Offered (M)"; "Price Low ($)";
       "Price High ($)"; "Exchange"] /\
    List.length (rows res) = 3%nat /\
    column "Expected Date" res = [Date 2025 1 15; Date 2025 2 10; Date 2025 3 1].
Proof.
  apply (upcoming_example sample_pd sample_obb sample_upcoming); reflexivity.
Defined.

(** ** The driver *)

Lemma failure_report_text (e : exn) :
  failure_report "upcoming" e =
    [Text "ERROR: Could not fetch upcoming IPO data.";
     Text ("Please ensure the 'openbb' library is installed and initialized correctly. Details: "
           +++ exn_str e)] /\
  failure_report "past" e =
    [Text "ERROR: Could not fetch past IPO data.";
     Text ("Please ensure the 'openbb' library is installed and initialized correctly. Details: "
           +++ exn_str e)].
Proof. split; reflexivity. Qed.

Lemma get_upcoming_ipos_returns (pd : pandas) (obb : OBB) (limit : Z) :
  exists out res, get_upcoming_ipos pd obb limit = (out, Ok res).
Proof.
  rewrite get_upcoming_ipos_cases.
  destruct (answer (upcoming_ipo obb limit)) as [df|e]; [|eauto].
  destruct (empty df); [eauto|].
  destruct (reshape pd upcoming_fields upcoming_labels "Expected Date" true df); eauto.
Qed.

Lemma get_past_ipos_returns (pd : pandas) (obb : OBB) (limit : Z) :
  exists out res, get_past_ipos pd obb limit = (out, Ok res).
Proof.
  rewrite get_past_ipos_cases.
  destruct (answer (historical_ipo obb limit)) as [df|e]; [|eauto].
  destruct (empty df); [eauto|].
  destruct (reshape pd past_fields past_labels "IPO Date" false df); eauto.
Qed.

Lemma display_cases (pd : pandas) (title : string) (df : DataFrame) :
  display pd title df =
  if empty df then ([], Ok tt)
  else match to_markdown pd df with
       | None => ([Text (nl +++ str_mul "=" 70); Text title; Markdown df;
                   Text (str_mul "=" 70)], Ok tt)
       | Some e => ([Text (nl +++ str_mul "=" 70); Text title], Raise e)
       end.
Proof.
  unfold display, print_markdown.
  destruct (empty df); [reflexivity|]. destruct (to_markdown pd df); reflexivity.
Qed.

Lemma display_runs (pd : pandas) (title : string) (df : DataFrame) :
  displays pd df = true ->
  display pd title df = (fst (display pd title df), Ok tt).
Proof.
  unfold displays. rewrite display_cases.
  destruct (empty df); [reflexivity|]. destruct (to_markdown pd df); [discriminate|reflexivity].
Qed.

(** The driver's output is the output of its steps, in order, up to the
    first display that raises, or else up to the completion notice. *)
Lemma main_run (pd : pandas) (obb : OBB) (o1 o2 : list item) (d1 d2 : DataFrame) :
  get_upcoming_ipos pd obb 10 = (o1, Ok d1) ->
  get_past_ipos pd obb 10 = (o2, Ok d2) ->
  main pd obb =
  match display pd "Upcoming IPOs:" d1 with
  | (x1, Raise e) => (o1 ++ x1, Raise e)
  | (x1, Ok _) =>
      match display pd "Recent Past IPOs:" d2 with
      | (x2, Raise e) => (o1 ++ x1 ++ o2 ++ x2, Raise e)
      | (x2, Ok _) => (o1 ++ x1 ++ o2 ++ x2 ++ [finished], Ok tt)
      end
  end.
Proof.
  intros H1 H2. unfold main, bind at 1.
  destruct (log_system_info obb); simpl; rewrite H1; unfold bind at 1;
    destruct (display pd "Upcoming IPOs:" d1) as [x1 [[]|e1]]; simpl;
    try reflexivity;
    rewrite H2; simpl;
    destruct (display pd "Recent Past IPOs:" d2) as [x2 [[]|e2]]; simpl;
    rewrite ?app_nil_r, <- ?app_assoc; reflexivity.
Qed.

Lemma main_completes (pd : pandas) (obb : OBB) (o1 o2 : list item) (d1 d2 : DataFrame) :
  get_upcoming_ipos pd obb 10 = (o1, Ok d1) ->
  get_past_ipos pd obb 10 = (o2, Ok d2) ->
  displays pd d1 = true -> displays pd d2 = true ->
  main pd obb =
  (o1 ++ fst (display pd "Upcoming IPOs:" d1) ++ o2
      ++ fst (display pd "Recent Past IPOs:" d2) ++ [finished], Ok tt).
Proof.
  intros H1 H2 D1 D2. rewrite (main_run pd obb _ _ _ _ H1 H2).
  rewrite (display_runs pd "Upcoming IPOs:" d1 D1).
  rewrite (display_runs pd "Recent Past IPOs:" d2 D2). reflexivity.
Qed.


Lemma displays_no_rows (pd : pandas) (df : DataFrame) :
  rows df = [] -> displays pd df = true.
Proof.
  intros H. unfold displays, empty. rewrite H. now destruct (columns df).
Qed.

Lemma past_output_head (pd : pandas) (obb : OBB) (o2 : list item) (d2 : DataFrame) :
  get_past_ipos pd obb 10 = (o2, Ok d2) -> exists o2', o2 = past_banner 10 :: o2'.
Proof.
  intros H2. rewrite get_past_ipos_cases in H2.
  destruct (answer (historical_ipo obb 10)) as [df|e'].
  - destruct (empty df).
    + injection H2 as <- _. eauto.
    + destruct (reshape pd past_fields past_labels "IPO Date" false df);
        injection H2 as <- _; eauto.
  - injection H2 as <- _. eauto.
Qed.

Lemma getitem_missing (pd : pandas) (fields : list string) (df : DataFrame) (k : string) :
  In k fields -> ~ In k (columns df) ->
  getitem pd fields df = Raise (Exn "KeyError" (key_error_text pd fields (columns df))).
Proof.
  intros Hk Hn. unfold getitem.
  destruct (filter (fun k => negb (existsb (String.eqb k) (columns df))) fields) eqn:E.
  - exfalso.
    assert (Hin : In k (filter (fun k => negb (existsb (String.eqb k) (columns df))) fields)).
    { apply filter_In. split; [exact Hk|].
      apply negb_true_iff. apply not_true_is_false. intros H.
      apply existsb_exists in H as (c & Hc & Ec).
      apply String.eqb_eq in Ec. now subst. }
    rewrite E in Hin. destruct Hin.
  - reflexivity.
Qed.





Lemma display_items (pd : pandas) (title : string) (df : DataFrame) (i : item) :
  In i (fst (display pd title df)) ->
  empty df = false /\
  (i = Text (nl +++ str_mul "=" 70) \/ i = Text title \/ i = Markdown df
   \/ i = Text (str_mul "=" 70)).
Proof.
  rewrite display_cases. destruct (empty df); [intros []|].
  destruct (to_markdown pd df); simpl; intros H; split; try reflexivity;
    intuition auto.
Qed.

Lemma main_items (pd : pandas) (obb : OBB) (o1 o2 : list item) (d1 d2 : DataFrame)
    (i : item) :
  get_upcoming_ipos pd obb 10 = (o1, Ok d1) ->
  get_past_ipos pd obb 10 = (o2, Ok d2) ->
  In i (fst (main pd obb)) ->
  In i o1 \/ In i (fst (display pd "Upcoming IPOs:" d1)) \/ In i o2
  \/ In i (fst (display pd "Recent Past IPOs:" d2)) \/ i = finished.
Proof.
  intros H1 H2. rewrite (main_run pd obb _ _ _ _ H1 H2).
  destruct (display pd "Upcoming IPOs:" d1) as [x1 [[]|e1]];
    [destruct (display pd "Recent Past IPOs:" d2) as [x2 [[]|e2]]|];
    simpl; rewrite ?in_app_iff; simpl; intuition auto.
Qed.

Lemma query_items (pd : pandas) (obb : OBB) (limit : Z) (i : item) :
  In i (fst (get_upcoming_ipos pd obb limit)) \/ In i (fst (get_past_ipos pd obb limit)) ->
  exists s, i = Text s /\ s <> "Upcoming IPOs:" /\ s <> "Recent Past IPOs:".
Proof.
  rewrite get_upcoming_ipos_cases, get_past_ipos_cases.
  unfold upcoming_banner, past_banner, failure_report, nl.
  intros [H|H].
  - destruct (answer (upcoming_ipo obb limit)) as [df|e];
      [destruct (empty df);
       [|destruct (reshape pd upcoming_fields upcoming_labels "Expected Date" true df)]|];
      simpl in H;
      repeat (destruct H as [H|H];
              [subst i; eexists; split; [reflexivity|]; split; intros X; discriminate X|]);
      destruct H.
  - destruct (answer (historical_ipo obb limit)) as [df|e];
      [destruct (empty df);
       [|destruct (reshape pd past_fields past_labels "IPO Date" false df)]|];
      simpl in H;
      repeat (destruct H as [H|H];
              [subst i; eexists; split; [reflexivity|]; split; intros X; discriminate X|]);
      destruct H.
Qed.

Lemma upcoming_items (pd : pandas) (obb : OBB) (limit : Z) (o : list item)
    (r : result DataFrame) (i : item) :
  get_upcoming_ipos pd obb limit = (o, r) -> In i o ->
  exists s, i = Text s /\ s <> "Upcoming IPOs:" /\ s <> "Recent Past IPOs:".
Proof.
  intros H Hi. apply (query_items pd obb limit). left. rewrite H. exact Hi.
Qed.

Lemma past_items (pd : pandas) (obb : OBB) (limit : Z) (o : list item)
    (r : result DataFrame) (i : item) :
  get_past_ipos pd obb limit = (o, r) -> In i o ->
  exists s, i = Text s /\ s <> "Upcoming IPOs:" /\ s <> "Recent Past IPOs:".
Proof.
  intros H Hi. apply (query_items pd obb limit). right. rewrite H. exact Hi.
Qed.

(** C5. When the provider answers with zero rows, each query returns that
    very table (nothing is selected, renamed or sorted), prints its
    informational notice and no error line, and the driver prints no table
    for that query: its display block prints nothing, the title of that
    query's table never appears, and after the notice the driver moves
    straight on. *)
Theorem empty_response_unchanged (pd : pandas) (obb : OBB) :
  (forall limit df,
      answer (upcoming_ipo obb limit) = Ok df -> rows df = [] ->
      get_upcoming_ipos pd obb limit
      = ([upcoming_banner limit;
          Text "No upcoming IPOs found for the specified limit."], Ok df)) /\
  (forall limit df,
      answer (historical_ipo obb limit) = Ok df -> rows df = [] ->
      get_past_ipos pd obb limit
      = ([past_banner limit;
          Text "No recent past IPOs found for the specified limit."], Ok df)) /\
  (forall title df, rows df = [] -> display pd title df = ([], Ok tt)) /\
  (forall df,
      answer (upcoming_ipo obb 10) = Ok df -> rows df = [] ->
      (exists rest r,
          main pd obb
          = ([upcoming_banner 10;
              Text "No upcoming IPOs found for the specified limit.";
              past_banner 10] ++ rest, r)) /\
      ~ In (Text "Upcoming IPOs:") (fst (main pd obb))) /\
  (forall df,
      answer (historical_ipo obb 10) = Ok df -> rows df = [] ->
      ~ In (Text "Recent Past IPOs:") (fst (main pd obb)) /\
      forall o1 d1,
        get_upcoming_ipos pd obb 10 = (o1, Ok d1) ->
        displays pd d1 = true ->
        main pd obb
        = (o1 ++ fst (display pd "Upcoming IPOs:" d1)
              ++ [past_banner 10;
                  Text "No recent past IPOs found for the specified limit.";
                  finished], Ok tt)).
Proof.
  assert (E : forall df, rows df = [] -> empty df = true).
  { intros df H. unfold empty. rewrite H. now destruct (columns df). }
  assert (D : forall title df, rows df = [] -> display pd title df = ([], Ok tt)).
  { intros title df H. rewrite display_cases. now rewrite (E df H). }
  repeat match goal with |- _ /\ _ => split end.
  - intros limit df Ha Hr. now rewrite get_upcoming_ipos_cases, Ha, (E df Hr).
  - intros limit df Ha Hr. now rewrite get_past_ipos_cases, Ha, (E df Hr).
  - exact D.
  - intros df Ha Hr.
    assert (H1 : get_upcoming_ipos pd obb 10
                 = ([upcoming_banner 10;
                     Text "No upcoming IPOs found for the specified limit."], Ok df))
      by now rewrite get_upcoming_ipos_cases, Ha, (E df Hr).
    destruct (get_past_ipos_returns pd obb 10) as (o2 & d2 & H2).
    split.
    + destruct (past_output_head pd obb o2 d2 H2) as [o2' ->].
      rewrite (main_run pd obb _ _ _ _ H1 H2), (D _ df Hr).
      destruct (display pd "Recent Past IPOs:" d2) as [x2 [[]|e2]]; simpl; eauto.
    + intros Hin.
      destruct (main_items pd obb _ _ _ _ _ H1 H2 Hin) as [H|[H|[H|[H|H]]]].
      * destruct (upcoming_items pd obb 10 _ _ _ H1 H) as (s & Hs & Hn & _).
        injection Hs as <-. now apply Hn.
      * rewrite (D _ df Hr) in H. destruct H.
      * destruct (past_items pd obb 10 _ _ _ H2 H) as (s & Hs & Hn & _).
        injection Hs as <-. now apply Hn.
      * apply display_items in H as [_ [H|[H|[H|H]]]]; try discriminate H.
      * discriminate H.
  - intros df Ha Hr.
    assert (H2 : get_past_ipos pd obb 10
                 = ([past_banner 10;
                     Text "No recent past IPOs found for the specified limit."], Ok df))
      by now rewrite get_past_ipos_cases, Ha, (E df Hr).
    destruct (get_upcoming_ipos_returns pd obb 10) as (o1 & d1 & H1).
    split.
    + intros Hin.
      destruct (main_items pd obb _ _ _ _ _ H1 H2 Hin) as [H|[H|[H|[H|H]]]].
      * destruct (upcoming_items pd obb 10 _ _ _ H1 H) as (s & Hs & _ & Hn).
        injection Hs as <-. now apply Hn.
      * apply display_items in H as [_ [H|[H|[H|H]]]]; try discriminate H.
      * destruct (past_items pd obb 10 _ _ _ H2 H) as (s & Hs & _ & Hn).
        injection Hs as <-. now apply Hn.
      * rewrite (D _ df Hr) in H. destruct H.
      * discriminate H.
    + intros o1' d1' H1' D1.
      rewrite (main_completes pd obb _ _ _ _ H1' H2 D1 (displays_no_rows pd df Hr)).
      rewrite (D _ df Hr). reflexivity.
Qed.

Lemma empty_response_unchanged_witness :
  get_upcoming_ipos sample_pd quiet_obb 10
  = ([Text "--- Fetching the next 10 Upcoming IPOs... ---";
      Text "No upcoming IPOs found for the specified limit."], Ok headers_upcoming) /\
  get_past_ipos sample_pd quiet_obb 10
  = ([past_banner 10;
      Text "No recent past IPOs found for the specified limit."], Ok headers_past) /\
  display sample_pd "Upcoming IPOs:" headers_upcoming = ([], Ok tt) /\
  ((exists rest r,
       main sample_pd quiet_obb
       = ([upcoming_banner 10;
           Text "No upcoming IPOs found for the specified limit.";
           past_banner 10] ++ rest, r)) /\
   ~ In (Text "Upcoming IPOs:") (fst (main sample_pd quiet_obb))) /\
  ~ In (Text "Recent Past IPOs:") (fst (main sample_pd quiet_obb)).
Proof.
  split; [|split; [|split; [|split]]].
  - apply (proj1 (empty_response_unchanged sample_pd quiet_obb) 10 headers_upcoming);
      reflexivity.
  - apply (proj1 (proj2 (empty_response_unchanged sample_pd quiet_obb)) 10 headers_past);
      reflexivity.
  - apply (proj1 (proj2 (proj2 (empty_response_unchanged sample_pd quiet_obb)))).
    reflexivity.
  - apply (proj1 (proj2 (proj2 (proj2 (empty_response_unchanged sample_pd quiet_obb))))
             headers_upcoming); reflexivity.
  - apply (proj2 (proj2 (proj2 (proj2 (empty_response_unchanged sample_pd quiet_obb))))
             headers_past); reflexivity.
Defined.

(** C8. A failure of the initialization hook [log_system_info] is swallowed
    without a message, and the driver then runs exactly as it does when the
    hook succeeds: the two queries and the whole output are the same. *)
Theorem hook_failure_ignored (pd : pandas) (obb : OBB) (e : exn) :
  try_except (lift (@Raise unit e)) (fun _ => ret tt) = ([], Ok tt) /\
  main pd (with_hook (Raise e) obb) = main pd (with_hook (Ok tt) obb) /\
  (forall limit,
      get_upcoming_ipos pd (with_hook (Raise e) obb) limit
      = get_upcoming_ipos pd (with_hook (Ok tt) obb) limit /\
      get_past_ipos pd (with_hook (Raise e) obb) limit
      = get_past_ipos pd (with_hook (Ok tt) obb) limit) /\
  (log_system_info obb = Raise e -> main pd obb = main pd (with_hook (Ok tt) obb)).
Proof.
  repeat match goal with |- _ /\ _ => split end; try reflexivity.
  - intros limit. split; reflexivity.
  - intros H. unfold main. rewrite H. reflexivity.
Qed.

Lemma hook_failure_ignored_witness :
  try_except (lift (@Raise unit connection_error)) (fun _ => ret tt) = ([], Ok tt) /\
  main sample_pd down_obb = main sample_pd (with_hook (Ok tt) down_obb).
Proof.
  split.
  - apply (proj1 (hook_failure_ignored sample_pd down_obb connection_error)).
  - apply (proj2 (proj2 (proj2 (hook_failure_ignored sample_pd down_obb connection_error)))).
    reflexivity.
Defined.

(** C10. The empty table a query returns after a provider failure is a new
    one with no rows and no columns; the empty table it returns after a
    successful answer with zero rows is the provider's own, column headers
    included.  The two outcomes can be told apart: by the returned table
    whenever the provider's table has headers, and by what was printed in
    every case. *)
Theorem empty_outcomes_differ (pd : pandas) (limit : Z) :
  (forall obb e,
      answer (upcoming_ipo obb limit) = Raise e ->
      snd (get_upcoming_ipos pd obb limit) = Ok (MkFrame [] [])) /\
  (forall obb e,
      answer (historical_ipo obb limit) = Raise e ->
      snd (get_past_ipos pd obb limit) = Ok (MkFrame [] [])) /\
  (forall obb df,
      answer (upcoming_ipo obb limit) = Ok df -> rows df = [] ->
      snd (get_upcoming_ipos pd obb limit) = Ok df) /\
  (forall obb df,
      answer (historical_ipo obb limit) = Ok df -> rows df = [] ->
      snd (get_past_ipos pd obb limit) = Ok df) /\
  (forall obb obb' e df,
      answer (upcoming_ipo obb limit) = Raise e ->
      answer (upcoming_ipo obb' limit) = Ok df -> rows df = [] ->
      fst (get_upcoming_ipos pd obb limit) <> fst (get_upcoming_ipos pd obb' limit) /\
      (columns df <> [] ->
       snd (get_upcoming_ipos pd obb limit) <> snd (get_upcoming_ipos pd obb' limit))) /\
  (forall obb obb' e df,
      answer (historical_ipo obb limit) = Raise e ->
      answer (historical_ipo obb' limit) = Ok df -> rows df = [] ->
      fst (get_past_ipos pd obb limit) <> fst (get_past_ipos pd obb' limit) /\
      (columns df <> [] ->
       snd (get_past_ipos pd obb limit) <> snd (get_past_ipos pd obb' limit))).
Proof.
  assert (E : forall df, rows df = [] -> empty df = true).
  { intros df H. unfold empty. rewrite H. now destruct (columns df). }
  repeat match goal with |- _ /\ _ => split end.
  - intros obb e H. now rewrite get_upcoming_ipos_cases, H.
  - intros obb e H. now rewrite get_past_ipos_cases, H.
  - intros obb df H Hr. now rewrite get_upcoming_ipos_cases, H, (E df Hr).
  - intros obb df H Hr. now rewrite get_past_ipos_cases, H, (E df Hr).
  - intros obb obb' e df H H' Hr.
    rewrite !get_upcoming_ipos_cases, H, H', (E df Hr). simpl. split.
    + intros X. discriminate X.
    + intros Hc X. injection X as X. apply Hc. now rewrite <- X.
  - intros obb obb' e df H H' Hr.
    rewrite !get_past_ipos_cases, H, H', (E df Hr). simpl. split.
    + intros X. discriminate X.
    + intros Hc X. injection X as X. apply Hc. now rewrite <- X.
Qed.

Lemma empty_outcomes_differ_witness :
  snd (get_upcoming_ipos sample_pd down_obb 10) = Ok (MkFrame [] []) /\
  snd (get_upcoming_ipos sample_pd quiet_obb 10) = Ok headers_upcoming /\
  snd (get_upcoming_ipos sample_pd down_obb 10) <> snd (get_upcoming_ipos sample_pd quiet_obb 10) /\
  snd (get_past_ipos sample_pd down_obb 10) <> snd (get_past_ipos sample_pd quiet_obb 10).
Proof.
  split; [|split; [|split]].
  - apply (proj1 (empty_outcomes_differ sample_pd 10) down_obb connection_error). reflexivity.
  - apply (proj1 (proj2 (proj2 (empty_outcomes_differ sample_pd 10))) quiet_obb headers_upcoming);
      reflexivity.
  - apply (proj1 (proj2 (proj2 (proj2 (proj2 (empty_outcomes_differ sample_pd 10)))))
             down_obb quiet_obb connection_error headers_upcoming);
      [reflexivity | reflexivity | reflexivity | discriminate].
  - apply (proj2 (proj2 (proj2 (proj2 (proj2 (empty_outcomes_differ sample_pd 10)))))
             down_obb quiet_obb connection_error headers_past);
      [reflexivity | reflexivity | reflexivity | discriminate].
Defined.

(** * Further properties of the queries and the driver *)

(** ** The three outcomes of a query *)

Lemma getitem_rows (pd : pandas) (keys : list string) (df d : DataFrame) :
  getitem pd keys df = Ok d -> List.length (rows d) = List.length (rows df).
Proof.
  unfold getitem.
  destruct (filter (fun k => negb (existsb (String.eqb k) (columns df))) keys);
    [|discriminate].
  intros H. injection H as <-. unfold take; simpl. apply length_map.
Qed.

Lemma reshape_shape (pd : pandas) (fields labels : list string) (key : string) (asc : bool)
    (df res : DataFrame) :
  reshape pd fields labels key asc df = Ok res ->
  columns res = labels /\
  List.length (rows res) = List.length (rows df) /\
  index res = range_index (List.length (rows res)).
Proof.
  unfold reshape.
  destruct (getitem pd fields df) as [d1|] eqn:E1; [|discriminate].
  unfold set_columns.
  destruct (Nat.eqb (List.length labels) (List.length (columns d1))); [|discriminate].
  unfold sort_values; simpl.
  destruct (positions labels key) as [|p [|q ps]]; try discriminate.
  destruct (homogeneous (filter notna (map (cell_at p) (rows d1)))); [|discriminate].
  intros H. injection H as <-.
  assert (L : List.length (relabel 0 (nargsort p asc (rows d1))) = List.length (rows df)).
  { rewrite relabel_length, nargsort_length. apply (getitem_rows pd _ _ _ E1). }
  unfold reset_index, index, range_index. cbn [columns rows].
  split; [reflexivity|]. split; [exact L|].
  rewrite (relabel_labels 0), relabel_length. reflexivity.
Qed.

Lemma empty_false_rows (df : DataFrame) : empty df = false -> rows df <> [].
Proof.
  unfold empty. destruct (columns df), (rows df); congruence.
Qed.

Lemma upcoming_outcome (pd : pandas) (obb : OBB) (limit : Z) :
  (exists df res,
      answer (upcoming_ipo obb limit) = Ok df /\
      get_upcoming_ipos pd obb limit = ([upcoming_banner limit], Ok res) /\
      columns res = upcoming_labels /\
      rows res <> [] /\
      List.length (rows res) = List.length (rows df) /\
      index res = range_index (List.length (rows res))) \/
  (exists df,
      answer (upcoming_ipo obb limit) = Ok df /\ empty df = true /\
      get_upcoming_ipos pd obb limit = ([upcoming_banner limit; upcoming_notice], Ok df)) \/
  (exists e,
      get_upcoming_ipos pd obb limit
      = (upcoming_banner limit :: failure_report "upcoming" e, Ok new_frame)).
Proof.
  rewrite get_upcoming_ipos_cases.
  destruct (answer (upcoming_ipo obb limit)) as [df|e]; [|right; right; eauto].
  destruct (empty df) eqn:E; [right; left; eauto|].
  destruct (reshape pd upcoming_fields upcoming_labels "Expected Date" true df) as [res|e] eqn:R;
    [|right; right; eauto].
  left. exists df, res. destruct (reshape_shape pd _ _ _ _ _ _ R) as (Hc & Hl & Hi).
  repeat split; auto.
  intros Hn. apply (empty_false_rows df E).
  apply length_zero_iff_nil. rewrite <- Hl, Hn. reflexivity.
Qed.

Lemma past_outcome (pd : pandas) (obb : OBB) (limit : Z) :
  (exists df res,
      answer (historical_ipo obb limit) = Ok df /\
      get_past_ipos pd obb limit = ([past_banner limit], Ok res) /\
      columns res = past_labels /\
      rows res <> [] /\
      List.length (rows res) = List.length (rows df) /\
      index res = range_index (List.length (rows res))) \/
  (exists df,
      answer (historical_ipo obb limit) = Ok df /\ empty df = true /\
      get_past_ipos pd obb limit = ([past_banner limit; past_notice], Ok df)) \/
  (exists e,
      get_past_ipos pd obb limit
      = (past_banner limit :: failure_report "past" e, Ok new_frame)).
Proof.
  rewrite get_past_ipos_cases.
  destruct (answer (historical_ipo obb limit)) as [df|e]; [|right; right; eauto].
  destruct (empty df) eqn:E; [right; left; eauto|].
  destruct (reshape pd past_fields past_labels "IPO Date" false df) as [res|e] eqn:R;
    [|right; right; eauto].
  left. exists df, res. destruct (reshape_shape pd _ _ _ _ _ _ R) as (Hc & Hl & Hi).
  repeat split; auto.
  intros Hn. apply (empty_false_rows df E).
  apply length_zero_iff_nil. rewrite <- Hl, Hn. reflexivity.
Qed.

(** X1. Whatever the provider does, a query ends in one of three ways, each
    after its banner: it prints nothing more and returns a table with rows,
    exactly the renamed columns, as many rows as the provider gave and the
    index 0..n-1; or it prints its notice and returns the provider's table,
    which is empty; or it prints its two error lines and returns a new empty
    table. *)
Theorem query_outcomes (pd : pandas) (obb : OBB) (limit : Z) :
  ((exists df res,
       answer (upcoming_ipo obb limit) = Ok df /\
       get_upcoming_ipos pd obb limit = ([upcoming_banner limit], Ok res) /\
       columns res = upcoming_labels /\
       rows res <> [] /\
       List.length (rows res) = List.length (rows df) /\
       index res = range_index (List.length (rows res))) \/
   (exists df,
       answer (upcoming_ipo obb limit) = Ok df /\ empty df = true /\
       get_upcoming_ipos pd obb limit
       = ([upcoming_banner limit;
           Text "No upcoming IPOs found for the specified limit."], Ok df)) \/
   (exists e,
       get_upcoming_ipos pd obb limit
       = ([upcoming_banner limit;
           Text "ERROR: Could not fetch upcoming IPO data.";
           Text ("Please ensure the 'openbb' library is installed and initialized correctly. Details: "
                 +++ exn_str e)], Ok (MkFrame [] [])))) /\
  ((exists df res,
       answer (historical_ipo obb limit) = Ok df /\
       get_past_ipos pd obb limit = ([past_banner limit], Ok res) /\
       columns res = past_labels /\
       rows res <> [] /\
       List.length (rows res) = List.length (rows df) /\
       index res = range_index (List.length (rows res))) \/
   (exists df,
       answer (historical_ipo obb limit) = Ok df /\ empty df = true /\
       get_past_ipos pd obb limit
       = ([past_banner limit;
           Text "No recent past IPOs found for the specified limit."], Ok df)) \/
   (exists e,
       get_past_ipos pd obb limit
       = ([past_banner limit;
           Text "ERROR: Could not fetch past IPO data.";
           Text ("Please ensure the 'openbb' library is installed and initialized correctly. Details: "
                 +++ exn_str e)], Ok (MkFrame [] [])))).
Proof.
  split; [apply upcoming_outcome | apply past_outcome].
Qed.

(** ** What the driver shows *)




(** ** Responses the renaming and the sort reject *)

Lemma flat_map_positions_length (cols fields : list string) :
  (forall f, In f fields -> In f cols) ->
  (List.length fields <= List.length (flat_map (positions cols) fields))%nat /\
  (forall k, In k fields -> (2 <= count_occ string_dec cols k)%nat ->
             (List.length fields < List.length (flat_map (positions cols) fields))%nat).
Proof.
  induction fields as [|f fields IH]; intros Hp; simpl.
  - split; [lia | intros k []].
  - rewrite length_app. unfold positions at 1 3. rewrite positions_from_length.
    assert (Hf : (1 <= count_occ string_dec cols f)%nat).
    { apply (count_occ_In string_dec). apply Hp. now left. }
    destruct IH as [IH1 IH2]; [intros g Hg; apply Hp; now right|].
    split; [lia|].
    intros k [<-|Hk] H2; [lia|]. specialize (IH2 k Hk H2). lia.
Qed.

Lemma flat_map_positions_count (cols fields : list string) :
  List.length (flat_map (positions cols) fields)
  = list_sum (map (count_occ string_dec cols) fields).
Proof.
  induction fields as [|f fields IH]; simpl; [reflexivity|].
  rewrite length_app, IH. unfold positions. now rewrite positions_from_length.
Qed.

Lemma getitem_present (pd : pandas) (fields : list string) (df : DataFrame) :
  (forall f, In f fields -> In f (columns df)) ->
  getitem pd fields df = Ok (take (flat_map (positions (columns df)) fields) df).
Proof.
  intros Hp. unfold getitem.
  assert (M : filter (fun k => negb (existsb (String.eqb k) (columns df))) fields = []).
  { apply filter_none. apply forallb_forall. intros f Hf.
    rewrite negb_involutive. apply existsb_exists. exists f.
    split; [now apply Hp | apply String.eqb_refl]. }
  now rewrite M.
Qed.

Lemma has_rows_not_empty (df : DataFrame) (k : string) :
  In k (columns df) -> rows df <> [] -> empty df = false.
Proof.
  unfold empty. intros Hk Hr. destruct (columns df); [destruct Hk|].
  destruct (rows df); congruence.
Qed.

(** X3. When a response with rows has every required field but one of them
    names two or more columns, the selection returns all the columns the
    fields name, more than there are labels, and the assignment of the
    labels raises a ValueError; the query prints its error lines with the
    text of that error, which gives the two counts, and returns a new empty
    table. *)
Theorem doubled_field_reported (pd : pandas) (obb : OBB) (limit : Z) :
  (forall df k,
      answer (upcoming_ipo obb limit) = Ok df ->
      rows df <> [] ->
      (forall f, In f upcoming_fields -> In f (columns df)) ->
      In k upcoming_fields ->
      (2 <= count_occ string_dec (columns df) k)%nat ->
      exists sel n,
        getitem pd upcoming_fields df = Ok sel /\
        List.length (columns sel) = n /\
        n = list_sum (map (count_occ string_dec (columns df)) upcoming_fields) /\
        (6 < n)%nat /\
        set_columns upcoming_labels sel
        = Raise (Exn "ValueError"
                   ("Length mismatch: Expected axis has " +++ string_of_nat n
                    +++ " elements, new values have 6 elements")) /\
        get_upcoming_ipos pd obb limit
        = ([upcoming_banner limit;
            Text "ERROR: Could not fetch upcoming IPO data.";
            Text ("Please ensure the 'openbb' library is installed and initialized correctly. Details: "
                  +++ "Length mismatch: Expected axis has " +++ string_of_nat n
                  +++ " elements, new values have 6 elements")], Ok new_frame)) /\
  (forall df k,
      answer (historical_ipo obb limit) = Ok df ->
      rows df <> [] ->
      (forall f, In f past_fields -> In f (columns df)) ->
      In k past_fields ->
      (2 <= count_occ string_dec (columns df) k)%nat ->
      exists sel n,
        getitem pd past_fields df = Ok sel /\
        List.length (columns sel) = n /\
        n = list_sum (map (count_occ string_dec (columns df)) past_fields) /\
        (4 < n)%nat /\
        set_columns past_labels sel
        = Raise (Exn "ValueError"
                   ("Length mismatch: Expected axis has " +++ string_of_nat n
                    +++ " elements, new values have 4 elements")) /\
        get_past_ipos pd obb limit
        = ([past_banner limit;
            Text "ERROR: Could not fetch past IPO data.";
            Text ("Please ensure the 'openbb' library is installed and initialized correctly. Details: "
                  +++ "Length mismatch: Expected axis has " +++ string_of_nat n
                  +++ " elements, new values have 4 elements")], Ok new_frame)).
Proof.
  split; intros df k Ha Hr Hp Hk H2.
  - pose proof (getitem_present pd upcoming_fields df Hp) as G.
    destruct (flat_map_positions_length (columns df) upcoming_fields Hp) as [_ L].
    specialize (L k Hk H2).
    pose proof (flat_map_positions_count (columns df) upcoming_fields) as C.
    set (sel := take (flat_map (positions (columns df)) upcoming_fields) df) in *.
    assert (N : List.length (columns sel)
                = List.length (flat_map (positions (columns df)) upcoming_fields))
      by (unfold sel, take; simpl; apply length_map).
    assert (S : set_columns upcoming_labels sel
                = Raise (Exn "ValueError"
                           ("Length mismatch: Expected axis has "
                            +++ string_of_nat (List.length (columns sel))
                            +++ " elements, new values have 6 elements"))).
    { unfold set_columns.
      destruct (Nat.eqb_spec (List.length upcoming_labels) (List.length (columns sel)))
        as [E|_]; [|reflexivity].
      rewrite N in E. simpl in E, L. lia. }
    exists sel, (List.length (columns sel)).
    split; [exact G|]. split; [reflexivity|]. split; [rewrite N; exact C|].
    split; [rewrite N; exact L|]. split; [exact S|].
    rewrite get_upcoming_ipos_cases, Ha, (has_rows_not_empty df k (Hp k Hk) Hr).
    unfold reshape. rewrite G, S. reflexivity.
  - pose proof (getitem_present pd past_fields df Hp) as G.
    destruct (flat_map_positions_length (columns df) past_fields Hp) as [_ L].
    specialize (L k Hk H2).
    pose proof (flat_map_positions_count (columns df) past_fields) as C.
    set (sel := take (flat_map (positions (columns df)) past_fields) df) in *.
    assert (N : List.length (columns sel)
                = List.length (flat_map (positions (columns df)) past_fields))
      by (unfold sel, take; simpl; apply length_map).
    assert (S : set_columns past_labels sel
                = Raise (Exn "ValueError"
                           ("Length mismatch: Expected axis has "
                            +++ string_of_nat (List.length (columns sel))
                            +++ " elements, new values have 4 elements"))).
    { unfold set_columns.
      destruct (Nat.eqb_spec (List.length past_labels) (List.length (columns sel)))
        as [E|_]; [|reflexivity].
      rewrite N in E. simpl in E, L. lia. }
    exists sel, (List.length (columns sel)).
    split; [exact G|]. split; [reflexivity|]. split; [rewrite N; exact C|].
    split; [rewrite N; exact L|]. split; [exact S|].
    rewrite get_past_ipos_cases, Ha, (has_rows_not_empty df k (Hp k Hk) Hr).
    unfold reshape. rewrite G, S. reflexivity.
Qed.

Lemma doubled_field_reported_witness :
  exists sel n,
    getitem sample_pd past_fields past_doubled_name = Ok sel /\
    List.length (columns sel) = n /\
    n = list_sum (map (count_occ string_dec (columns past_doubled_name)) past_fields) /\
    (4 < n)%nat /\
    set_columns past_labels sel
    = Raise (Exn "ValueError"
               ("Length mismatch: Expected axis has " +++ string_of_nat n
                +++ " elements, new values have 4 elements")) /\
    get_past_ipos sample_pd (answering past_doubled_name) 10
    = ([past_banner 10;
        Text "ERROR: Could not fetch past IPO data.";
        Text ("Please ensure the 'openbb' library is installed and initialized correctly. Details: "
              +++ "Length mismatch: Expected axis has " +++ string_of_nat n
              +++ " elements, new values have 4 elements")], Ok new_frame).
Proof.
  apply (proj2 (doubled_field_reported sample_pd (answering past_doubled_name) 10)
           past_doubled_name "name").
  - reflexivity.
  - discriminate.
  - simpl. intros f [<-|[<-|[<-|[<-|[]]]]]; simpl; tauto.
  - simpl; tauto.
  - simpl. lia.
Defined.

(** X4. When a response with rows contains the required fields but the dates
    present are not all of one type (a date next to a text, say), the fields
    are selected and renamed and it is the sort that raises, a TypeError; the
    query prints its error lines with the text of that error and returns a
    new empty table. *)
Theorem mixed_dates_reported (pd : pandas) (obb : OBB) (limit : Z) :
  (forall df,
      answer (upcoming_ipo obb limit) = Ok df ->
      rows df <> [] ->
      has_fields upcoming_fields df = true ->
      ordered_field "expected_date" df = false ->
      exists sel ren,
        getitem pd upcoming_fields df = Ok sel /\
        set_columns upcoming_labels sel = Ok ren /\
        sort_values pd "Expected Date" true ren
        = Raise (Exn "TypeError"
                   (type_error_text pd (filter notna (column "expected_date" df)) true)) /\
        get_upcoming_ipos pd obb limit
        = ([upcoming_banner limit;
            Text "ERROR: Could not fetch upcoming IPO data.";
            Text ("Please ensure the 'openbb' library is installed and initialized correctly. Details: "
                  +++ type_error_text pd (filter notna (column "expected_date" df)) true)],
           Ok new_frame)) /\
  (forall df,
      answer (historical_ipo obb limit) = Ok df ->
      rows df <> [] ->
      has_fields past_fields df = true ->
      ordered_field "date" df = false ->
      exists sel ren,
        getitem pd past_fields df = Ok sel /\
        set_columns past_labels sel = Ok ren /\
        sort_values pd "IPO Date" false ren
        = Raise (Exn "TypeError"
                   (type_error_text pd (filter notna (column "date" df)) false)) /\
        get_past_ipos pd obb limit
        = ([past_banner limit;
            Text "ERROR: Could not fetch past IPO data.";
            Text ("Please ensure the 'openbb' library is installed and initialized correctly. Details: "
                  +++ type_error_text pd (filter notna (column "date" df)) false)],
           Ok new_frame)).
Proof.
  assert (K : forall fields df kf j,
             has_fields fields df = true -> nth_error fields j = Some kf ->
             column kf df = map (cell_at j) (projected fields df)).
  { intros fields df kf j Hf Hj.
    rewrite column_once
      by (apply (has_fields_In fields); [exact Hf | eapply nth_error_In; eassumption]).
    symmetry. now apply projected_key. }
  split; intros df Ha Hr Hf Ho.
  - pose proof (K upcoming_fields df "expected_date" 1%nat Hf eq_refl) as Hc.
    unfold ordered_field in Ho. rewrite Hc in *.
    assert (S : sort_values pd "Expected Date" true
                  (MkFrame upcoming_labels (projected upcoming_fields df))
                = Raise (Exn "TypeError"
                           (type_error_text pd
                              (filter notna (map (cell_at 1) (projected upcoming_fields df)))
                              true))).
    { unfold sort_values; simpl. now rewrite Ho. }
    exists (MkFrame upcoming_fields (projected upcoming_fields df)),
           (MkFrame upcoming_labels (projected upcoming_fields df)).
    split; [now apply getitem_fields|]. split; [reflexivity|]. split; [exact S|].
    rewrite get_upcoming_ipos_cases, Ha, (not_empty _ _ _ Hf Hr).
    unfold reshape. rewrite (getitem_fields pd _ _ Hf).
    unfold set_columns at 1; simpl. rewrite S. reflexivity.
  - pose proof (K past_fields df "date" 1%nat Hf eq_refl) as Hc.
    unfold ordered_field in Ho. rewrite Hc in *.
    assert (S : sort_values pd "IPO Date" false
                  (MkFrame past_labels (projected past_fields df))
                = Raise (Exn "TypeError"
                           (type_error_text pd
                              (filter notna (map (cell_at 1) (projected past_fields df)))
                              false))).
    { unfold sort_values; simpl. now rewrite Ho. }
    exists (MkFrame past_fields (projected past_fields df)),
           (MkFrame past_labels (projected past_fields df)).
    split; [now apply getitem_fields|]. split; [reflexivity|]. split; [exact S|].
    rewrite get_past_ipos_cases, Ha, (not_empty _ _ _ Hf Hr).
    unfold reshape. rewrite (getitem_fields pd _ _ Hf).
    unfold set_columns at 1; simpl. rewrite S. reflexivity.
Qed.

Lemma mixed_dates_reported_witness :
  exists sel ren,
    getitem sample_pd past_fields past_mixed_dates = Ok sel /\
    set_columns past_labels sel = Ok ren /\
    sort_values sample_pd "IPO Date" false ren
    = Raise (Exn "TypeError"
               (type_error_text sample_pd
                  (filter notna (column "date" past_mixed_dates)) false)) /\
    get_past_ipos sample_pd (answering past_mixed_dates) 10
    = ([past_banner 10;
        Text "ERROR: Could not fetch past IPO data.";
        Text ("Please ensure the 'openbb' library is installed and initialized correctly. Details: "
              +++ type_error_text sample_pd
                    (filter notna (column "date" past_mixed_dates)) false)],
       Ok new_frame).
Proof.
  apply (proj2 (mixed_dates_reported sample_pd (answering past_mixed_dates) 10)
           past_mixed_dates);
    [reflexivity | discriminate | reflexivity | reflexivity].
Defined.

(** ** What the returned table depends on *)

Section SameCells.

Variable p : nat.

Lemma same_cell_at (x y : row) : row_cells x = row_cells y -> cell_at p x = cell_at p y.
Proof. unfold cell_at. now intros ->. Qed.

Lemma insert_same (r r' : row) (l l' : list row) :
  row_cells r = row_cells r' ->
  Forall2 (fun x y => row_cells x = row_cells y) l l' ->
  Forall2 (fun x y => row_cells x = row_cells y) (insert p r l) (insert p r' l').
Proof.
  intros Hr H. induction H as [|x y l l' Hxy H IH]; simpl.
  - repeat constructor. exact Hr.
  - rewrite (same_cell_at x y Hxy), (same_cell_at r r' Hr).
    destruct (ltb (cell_at p y) (cell_at p r')).
    + constructor; assumption.
    + repeat constructor; assumption.
Qed.

Lemma isort_same (l l' : list row) :
  Forall2 (fun x y => row_cells x = row_cells y) l l' ->
  Forall2 (fun x y => row_cells x = row_cells y) (isort p l) (isort p l').
Proof.
  induction 1 as [|x y l l' Hxy H IH]; simpl; [constructor|].
  now apply insert_same.
Qed.

Lemma filter_same (f : cell -> bool) (l l' : list row) :
  Forall2 (fun x y => row_cells x = row_cells y) l l' ->
  Forall2 (fun x y => row_cells x = row_cells y)
    (filter (fun r => f (cell_at p r)) l) (filter (fun r => f (cell_at p r)) l').
Proof.
  induction 1 as [|x y l l' Hxy H IH]; simpl; [constructor|].
  rewrite (same_cell_at x y Hxy). destruct (f (cell_at p y)); [constructor|]; assumption.
Qed.

Lemma rev_same (l l' : list row) :
  Forall2 (fun x y => row_cells x = row_cells y) l l' ->
  Forall2 (fun x y => row_cells x = row_cells y) (rev l) (rev l').
Proof.
  induction 1 as [|x y l l' Hxy H IH]; simpl; [constructor|].
  apply Forall2_app; [exact IH | repeat constructor; exact Hxy].
Qed.

Lemma nargsort_same (asc : bool) (l l' : list row) :
  Forall2 (fun x y => row_cells x = row_cells y) l l' ->
  Forall2 (fun x y => row_cells x = row_cells y) (nargsort p asc l) (nargsort p asc l').
Proof.
  intros H. unfold nargsort. apply Forall2_app.
  - destruct asc.
    + apply isort_same, (filter_same notna), H.
    + apply rev_same, isort_same, rev_same, (filter_same notna), H.
  - apply (filter_same isna), H.
Qed.

End SameCells.

Lemma same_cells_map (l l' : list row) :
  map row_cells l = map row_cells l' <->
  Forall2 (fun x y => row_cells x = row_cells y) l l'.
Proof.
  split.
  - revert l'. induction l as [|x l IH]; intros [|y l'] H; try discriminate; [constructor|].
    injection H as Hxy H. constructor; [exact Hxy | now apply IH].
  - induction 1 as [|x y l l' Hxy H IH]; simpl; [reflexivity | now rewrite Hxy, IH].
Qed.

Lemma relabel_same (i : Z) (l l' : list row) :
  Forall2 (fun x y => row_cells x = row_cells y) l l' -> relabel i l = relabel i l'.
Proof.
  intros H. revert i. induction H as [|x y l l' Hxy H IH]; intros i; simpl; [reflexivity|].
  now rewrite Hxy, IH.
Qed.

Lemma reshape_same (pd : pandas) (fields labels : list string) (key : string) (asc : bool)
    (df df' : DataFrame) :
  has_fields fields df = true ->
  has_fields fields df' = true ->
  map (project_row fields (columns df)) (rows df)
  = map (project_row fields (columns df')) (rows df') ->
  reshape pd fields labels key asc df = reshape pd fields labels key asc df'.
Proof.
  intros Hf Hf' Hp. unfold reshape.
  rewrite (getitem_fields pd _ _ Hf), (getitem_fields pd _ _ Hf').
  unfold set_columns; simpl.
  destruct (Nat.eqb (List.length labels) (List.length fields)); [|reflexivity].
  assert (S : Forall2 (fun x y => row_cells x = row_cells y)
                (projected fields df) (projected fields df')).
  { apply same_cells_map. unfold projected. rewrite !map_map. exact Hp. }
  unfold sort_values; simpl.
  destruct (positions labels key) as [|q [|q' qs]]; try reflexivity.
  assert (K : map (cell_at q) (projected fields df) = map (cell_at q) (projected fields df')).
  { clear - S. induction S as [|x y l l' Hxy H IH]; simpl; [reflexivity|].
    now rewrite (same_cell_at q x y Hxy), IH. }
  rewrite K.
  destruct (homogeneous (filter notna (map (cell_at q) (projected fields df'))));
    [|reflexivity].
  unfold reset_index; simpl. do 2 f_equal.
  apply relabel_same, nargsort_same, S.
Qed.

(** X5. The outcome of a query depends only on the values under the required
    fields, row by row: two responses with rows whose rows agree on those
    fields give the same output and the same returned table (or the same
    error report), whatever their other columns, their column order and
    their index labels. *)
Theorem response_invariance (pd : pandas) (limit : Z) :
  (forall obb obb' df df',
      answer (upcoming_ipo obb limit) = Ok df ->
      answer (upcoming_ipo obb' limit) = Ok df' ->
      rows df <> [] ->
      has_fields upcoming_fields df = true ->
      has_fields upcoming_fields df' = true ->
      map (project_row upcoming_fields (columns df)) (rows df)
      = map (project_row upcoming_fields (columns df')) (rows df') ->
      get_upcoming_ipos pd obb limit = get_upcoming_ipos pd obb' limit) /\
  (forall obb obb' df df',
      answer (historical_ipo obb limit) = Ok df ->
      answer (historical_ipo obb' limit) = Ok df' ->
      rows df <> [] ->
      has_fields past_fields df = true ->
      has_fields past_fields df' = true ->
      map (project_row past_fields (columns df)) (rows df)
      = map (project_row past_fields (columns df')) (rows df') ->
      get_past_ipos pd obb limit = get_past_ipos pd obb' limit).
Proof.
  assert (R : forall (fields : list string) (df df' : DataFrame),
             map (project_row fields (columns df)) (rows df)
             = map (project_row fields (columns df')) (rows df') ->
             rows df <> [] -> rows df' <> []).
  { intros fields df df' H Hr Hn. rewrite Hn in H.
    destruct (rows df); [congruence | discriminate]. }
  split; intros obb obb' df df' Ha Ha' Hr Hf Hf' Hp.
  - rewrite !get_upcoming_ipos_cases, Ha, Ha'.
    rewrite (not_empty _ _ _ Hf Hr), (not_empty _ _ _ Hf' (R _ _ _ Hp Hr)).
    now rewrite (reshape_same pd _ _ _ _ df df' Hf Hf' Hp).
  - rewrite !get_past_ipos_cases, Ha, Ha'.
    rewrite (not_empty _ _ _ Hf Hr), (not_empty _ _ _ Hf' (R _ _ _ Hp Hr)).
    now rewrite (reshape_same pd _ _ _ _ df df' Hf Hf' Hp).
Qed.

Lemma response_invariance_witness :
  get_upcoming_ipos sample_pd (answering sample_upcoming) 10
  = get_upcoming_ipos sample_pd (answering sample_upcoming_shuffled) 10.
Proof.
  apply (proj1 (response_invariance sample_pd 10) (answering sample_upcoming)
           (answering sample_upcoming_shuffled) sample_upcoming sample_upcoming_shuffled);
    [reflexivity | reflexivity | discriminate | reflexivity | reflexivity | reflexivity].
Defined.

(** ** Rows without a date *)

Lemma filter_map_key (f : cell -> bool) (p : nat) (l : list row) :
  map (cell_at p) (filter (fun r => f (cell_at p r)) l) = filter f (map (cell_at p) l).
Proof.
  induction l as [|r l IH]; simpl; [reflexivity|].
  destruct (f (cell_at p r)); simpl; now rewrite IH.
Qed.

Lemma filter_isna_repeat (l : list cell) :
  filter isna l = repeat NA (List.length (filter isna l)).
Proof.
  induction l as [|c l IH]; simpl; [reflexivity|].
  destruct c; simpl; try exact IH. now rewrite <- IH.
Qed.

Lemma forallb_filter_self {A : Type} (f : A -> bool) (l : list A) :
  forallb f (filter f l) = true.
Proof.
  apply forallb_forall. intros x Hx. now apply filter_In in Hx.
Qed.

(** The keys of the sorted rows: the keys present, in order, then the
    missing ones. *)
Lemma nargsort_keys (p : nat) (asc : bool) (l : list row) :
  homogeneous (filter notna (map (cell_at p) l)) = true ->
  exists dated,
    map (cell_at p) (nargsort p asc l)
    = dated ++ repeat NA (List.length (filter isna (map (cell_at p) l))) /\
    Permutation dated (filter notna (map (cell_at p) l)) /\
    StronglySorted (fun a b => if asc then leb a b = true else leb b a = true) dated.
Proof.
  intros Hh.
  set (present := filter (fun r => notna (cell_at p r)) l).
  assert (Hk : map (cell_at p) present = filter notna (map (cell_at p) l))
    by apply (filter_map_key notna).
  assert (Hpairs : forall x y, In x present -> In y present ->
                               same_kind (cell_at p x) (cell_at p y) = true).
  { intros x y Hx Hy.
    apply (homogeneous_pairs (filter notna (map (cell_at p) l)));
      [apply forallb_filter_self | exact Hh | |]; rewrite <- Hk; now apply in_map. }
  exists (map (cell_at p) (if asc then isort p present else rev (isort p (rev present)))).
  split; [|split].
  - unfold nargsort. fold present. rewrite map_app. f_equal.
    rewrite (filter_map_key isna). apply filter_isna_repeat.
  - rewrite <- Hk. apply Permutation_map. destruct asc.
    + apply isort_perm.
    + eapply Permutation_trans; [symmetry; apply Permutation_rev|].
      eapply Permutation_trans; [apply isort_perm|].
      symmetry. apply Permutation_rev.
  - apply StronglySorted_map. destruct asc.
    + now apply isort_ascending.
    + apply (StronglySorted_rev (fun x y => leb (cell_at p x) (cell_at p y) = true)).
      apply isort_ascending. intros x y Hx Hy. apply Hpairs; now apply in_rev.
Qed.



(** ** Responses that are already in order *)

Lemma same_kind_notna (a b : cell) :
  same_kind a b = true -> notna a = true /\ notna b = true.
Proof. destruct a, b; simpl; intros H; try discriminate H; auto. Qed.

Lemma strict_keys (R : cell -> cell -> Prop) (l : list cell) :
  (forall a b, R a b -> same_kind a b = true) ->
  StronglySorted R l ->
  homogeneous (filter notna l) = true /\
  ((2 <= List.length l)%nat -> forallb notna l = true).
Proof.
  intros HR H. destruct H as [|c l Hs Hc]; [split; [reflexivity | simpl; lia]|].
  destruct l as [|c' l].
  - split; [destruct c; reflexivity | simpl; lia].
  - assert (Hall : forall x, In x (c' :: l) -> same_kind c x = true).
    { rewrite Forall_forall in Hc. intros x Hx. apply HR, Hc, Hx. }
    assert (Hn : forallb notna (c :: c' :: l) = true).
    { apply forallb_forall. intros x [<-|Hx].
      - apply (same_kind_notna c c'). apply Hall. now left.
      - apply (same_kind_notna c x). now apply Hall. }
    split; [|intros _; exact Hn].
    rewrite (filter_all _ _ Hn). simpl. apply forallb_forall in Hall. exact Hall.
Qed.

Lemma ltb_same_kind (a b : cell) : ltb a b = true -> same_kind a b = true.
Proof. unfold ltb, same_kind. destruct (compare a b); [reflexivity | discriminate]. Qed.

Lemma gtb_same_kind (a b : cell) : ltb b a = true -> same_kind a b = true.
Proof.
  unfold ltb, same_kind. rewrite (compare_antisym a b).
  destruct (compare a b); [reflexivity | discriminate].
Qed.

Lemma isort_in_order (p : nat) (l : list row) :
  StronglySorted (fun a b => ltb a b = true) (map (cell_at p) l) -> isort p l = l.
Proof.
  induction l as [|r l IH]; simpl; [reflexivity|].
  intros H. inversion H as [|c cs Hs Hc]; subst. rewrite (IH Hs).
  destruct l as [|x l]; [reflexivity|]. simpl.
  inversion Hc as [|c cs Hrx _]; subst. now rewrite (ltb_asym _ _ Hrx).
Qed.

Lemma nargsort_in_order (p : nat) (l : list row) :
  StronglySorted (fun a b => ltb a b = true) (map (cell_at p) l) ->
  nargsort p true l = l.
Proof.
  intros H. destruct l as [|r [|r' l]].
  - reflexivity.
  - unfold nargsort, notna; simpl. destruct (isna (cell_at p r)); reflexivity.
  - destruct (strict_keys _ _ ltb_same_kind H) as [_ Hn].
    rewrite nargsort_filled by (apply Hn; simpl; lia).
    now apply isort_in_order.
Qed.

Lemma nargsort_in_reverse_order (p : nat) (l : list row) :
  StronglySorted (fun a b => ltb b a = true) (map (cell_at p) l) ->
  nargsort p false l = l.
Proof.
  intros H. destruct l as [|r [|r' l]].
  - reflexivity.
  - unfold nargsort, notna; simpl. destruct (isna (cell_at p r)); reflexivity.
  - destruct (strict_keys _ _ gtb_same_kind H) as [_ Hn].
    rewrite nargsort_filled by (apply Hn; simpl; lia).
    rewrite isort_in_order; [apply rev_involutive|].
    rewrite map_rev.
    apply (StronglySorted_rev (fun a b => ltb b a = true)), H.
Qed.

(** X7. A response that is already in order comes back in the same order:
    when the expected dates of the provider rows are strictly increasing the
    upcoming query returns the projected rows in the provider's order, and
    when the dates are strictly decreasing the past query does. *)
Theorem ordered_response_kept (pd : pandas) (obb : OBB) (limit : Z) :
  (forall df,
      answer (upcoming_ipo obb limit) = Ok df ->
      rows df <> [] ->
      has_fields upcoming_fields df = true ->
      StronglySorted (fun a b => ltb a b = true) (column "expected_date" df) ->
      exists out res,
        get_upcoming_ipos pd obb limit = (out, Ok res) /\
        map row_cells (rows res)
        = map (project_row upcoming_fields (columns df)) (rows df)) /\
  (forall df,
      answer (historical_ipo obb limit) = Ok df ->
      rows df <> [] ->
      has_fields past_fields df = true ->
      StronglySorted (fun a b => ltb b a = true) (column "date" df) ->
      exists out res,
        get_past_ipos pd obb limit = (out, Ok res) /\
        map row_cells (rows res)
        = map (project_row past_fields (columns df)) (rows df)).
Proof.
  assert (P : forall fields df,
             map row_cells (relabel 0 (projected fields df))
             = map (project_row fields (columns df)) (rows df)).
  { intros fields df. rewrite relabel_cells. unfold projected. now rewrite map_map. }
  split; intros df Ha Hr Hf Hs.
  - assert (Hc : column "expected_date" df
                 = map (cell_at 1) (projected upcoming_fields df)).
    { rewrite column_once
        by (apply (has_fields_In upcoming_fields); [exact Hf | simpl; tauto]).
      symmetry. now apply projected_key. }
    assert (Ho : ordered_field "expected_date" df = true)
      by apply (strict_keys _ _ ltb_same_kind Hs).
    rewrite (get_upcoming_ipos_rows pd _ _ _ Ha Hr Hf Ho).
    do 2 eexists. split; [reflexivity|]. simpl.
    rewrite Hc in Hs. rewrite (nargsort_in_order _ _ Hs). apply P.
  - assert (Hc : column "date" df = map (cell_at 1) (projected past_fields df)).
    { rewrite column_once
        by (apply (has_fields_In past_fields); [exact Hf | simpl; tauto]).
      symmetry. now apply projected_key. }
    assert (Ho : ordered_field "date" df = true)
      by apply (strict_keys _ _ gtb_same_kind Hs).
    rewrite (get_past_ipos_rows pd _ _ _ Ha Hr Hf Ho).
    do 2 eexists. split; [reflexivity|]. simpl.
    rewrite Hc in Hs. rewrite (nargsort_in_reverse_order _ _ Hs). apply P.
Qed.

Lemma ordered_response_kept_witness :
  (exists out res,
      get_upcoming_ipos sample_pd (answering upcoming_in_order) 10 = (out, Ok res) /\
      map row_cells (rows res)
      = map (project_row upcoming_fields (columns upcoming_in_order))
            (rows upcoming_in_order)) /\
  (exists out res,
      get_past_ipos sample_pd (answering past_in_order) 10 = (out, Ok res) /\
      map row_cells (rows res)
      = map (project_row past_fields (columns past_in_order)) (rows past_in_order)).
Proof.
  split.
  - apply (proj1 (ordered_response_kept sample_pd (answering upcoming_in_order) 10)
             upcoming_in_order);
      [reflexivity | discriminate | reflexivity |].
    vm_compute. repeat constructor.
  - apply (proj2 (ordered_response_kept sample_pd (answering past_in_order) 10) past_in_order);
      [reflexivity | discriminate | reflexivity |].
    vm_compute. repeat constructor.
Defined.

(** ** A response that lacks a field *)

(** X8. A response with rows and columns that lacks one of the required
    fields fails at the first step, whatever else is wrong with it (another
    field doubled, dates of several types): the selection of the fields
    raises a KeyError, and the query prints its error lines with the text of
    that error and returns a new empty table. *)
Theorem absent_field_key_error (pd : pandas) (obb : OBB) (limit : Z) :
  (forall df k,
      answer (upcoming_ipo obb limit) = Ok df ->
      empty df = false ->
      In k upcoming_fields -> ~ In k (columns df) ->
      getitem pd upcoming_fields df
      = Raise (Exn "KeyError" (key_error_text pd upcoming_fields (columns df))) /\
      get_upcoming_ipos pd obb limit
      = ([upcoming_banner limit;
          Text "ERROR: Could not fetch upcoming IPO data.";
          Text ("Please ensure the 'openbb' library is installed and initialized correctly. Details: "
                +++ key_error_text pd upcoming_fields (columns df))], Ok new_frame)) /\
  (forall df k,
      answer (historical_ipo obb limit) = Ok df ->
      empty df = false ->
      In k past_fields -> ~ In k (columns df) ->
      getitem pd past_fields df
      = Raise (Exn "KeyError" (key_error_text pd past_fields (columns df))) /\
      get_past_ipos pd obb limit
      = ([past_banner limit;
          Text "ERROR: Could not fetch past IPO data.";
          Text ("Please ensure the 'openbb' library is installed and initialized correctly. Details: "
                +++ key_error_text pd past_fields (columns df))], Ok new_frame)).
Proof.
  split; intros df k Ha He Hk Hn.
  - pose proof (getitem_missing pd upcoming_fields df k Hk Hn) as G.
    split; [exact G|].
    rewrite get_upcoming_ipos_cases, Ha, He. unfold reshape. now rewrite G.
  - pose proof (getitem_missing pd past_fields df k Hk Hn) as G.
    split; [exact G|].
    rewrite get_past_ipos_cases, Ha, He. unfold reshape. now rewrite G.
Qed.

Lemma absent_field_key_error_witness :
  getitem sample_pd past_fields sample_past_no_price
  = Raise (Exn "KeyError" (key_error_text sample_pd past_fields (columns sample_past_no_price))) /\
  get_past_ipos sample_pd failing_obb 10
  = ([past_banner 10;
      Text "ERROR: Could not fetch past IPO data.";
      Text ("Please ensure the 'openbb' library is installed and initialized correctly. Details: "
            +++ key_error_text sample_pd past_fields (columns sample_past_no_price))],
     Ok new_frame).
Proof.
  apply (proj2 (absent_field_key_error sample_pd failing_obb 10) sample_past_no_price "price").
  - reflexivity.
  - reflexivity.
  - simpl; tauto.
  - simpl. intros [H|[H|[H|[]]]]; discriminate H.
Defined.

(** ** Tables with rows are shown *)

(** X9. A table with rows and columns that a query returns to the driver is
    printed when it renders: under the title Upcoming IPOs: or Recent Past
    IPOs:, between a rule of 70 equals signs led by a newline and a plain
    rule of 70 equals signs.  When its rendering raises, the run ends right
    after the title: nothing more is printed, the exception leaves the
    script, and the exit code is 1. *)
Theorem returned_tables_shown (pd : pandas) (obb : OBB) :
  (forall out res,
      get_upcoming_ipos pd obb 10 = (out, Ok res) -> empty res = false ->
      (to_markdown pd res = None ->
       exists after r,
         main pd obb
         = (out ++ [Text (nl +++ str_mul "=" 70); Text "Upcoming IPOs:"; Markdown res;
                    Text (str_mul "=" 70)] ++ after, r)) /\
      (forall e,
          to_markdown pd res = Some e ->
          main pd obb
          = (out ++ [Text (nl +++ str_mul "=" 70); Text "Upcoming IPOs:"], Raise e) /\
          exit_code (main pd obb) = 1)) /\
  (forall o1 d1 out res,
      get_upcoming_ipos pd obb 10 = (o1, Ok d1) -> displays pd d1 = true ->
      get_past_ipos pd obb 10 = (out, Ok res) -> empty res = false ->
      (to_markdown pd res = None ->
       main pd obb
       = (o1 ++ fst (display pd "Upcoming IPOs:" d1) ++ out
             ++ [Text (nl +++ str_mul "=" 70); Text "Recent Past IPOs:"; Markdown res;
                 Text (str_mul "=" 70); finished], Ok tt)) /\
      (forall e,
          to_markdown pd res = Some e ->
          main pd obb
          = (o1 ++ fst (display pd "Upcoming IPOs:" d1) ++ out
                ++ [Text (nl +++ str_mul "=" 70); Text "Recent Past IPOs:"], Raise e) /\
          exit_code (main pd obb) = 1)).
Proof.
  split.
  - intros out res H He.
    destruct (get_past_ipos_returns pd obb 10) as (o2 & d2 & H2).
    pose proof (main_run pd obb _ _ _ _ H H2) as M.
    rewrite (display_cases pd "Upcoming IPOs:" res), He in M.
    split.
    + intros R. rewrite R in M. rewrite M.
      destruct (display pd "Recent Past IPOs:" d2) as [x2 [[]|e2]]; eauto.
    + intros e R. rewrite R in M. unfold exit_code. rewrite M. auto.
  - intros o1 d1 out res H1 D1 H He.
    pose proof (main_run pd obb _ _ _ _ H1 H) as M.
    rewrite (display_runs pd "Upcoming IPOs:" d1 D1) in M.
    rewrite (display_cases pd "Recent Past IPOs:" res), He in M.
    split.
    + intros R. rewrite R in M. rewrite M. reflexivity.
    + intros e R. rewrite R in M. unfold exit_code. rewrite M. auto.
Qed.

Lemma returned_tables_shown_witness :
  (exists after r,
      main sample_pd sample_obb
      = ([Text "--- Fetching the next 10 Upcoming IPOs... ---"]
           ++ [Text (nl +++ str_mul "=" 70); Text "Upcoming IPOs:";
               Markdown
                 (MkFrame upcoming_labels
                    [ Row (Num 0) [Str "Beta"; Date 2025 1 15; Num 8; Num 20; Num 22;
                                   Str "NASDAQ"];
                      Row (Num 1) [Str "Gamma"; Date 2025 2 10; Num 3; Num 15; Num 18;
                                   Str "NYSE"];
                      Row (Num 2) [Str "Alpha"; Date 2025 3 1; Num 5; Num 10; Num 12;
                                   Str "NYSE"] ]);
               Text (str_mul "=" 70)] ++ after, r)) /\
  main no_tabulate upcoming_down_obb
  = (fst (get_upcoming_ipos no_tabulate upcoming_down_obb 10)
       ++ fst (display no_tabulate "Upcoming IPOs:" new_frame)
       ++ [past_banner 10]
       ++ [Text (nl +++ str_mul "=" 70); Text "Recent Past IPOs:"], Raise import_error) /\
  exit_code (main no_tabulate upcoming_down_obb) = 1.
Proof.
  split.
  - apply (proj1 (proj1 (returned_tables_shown sample_pd sample_obb) _ _ eq_refl eq_refl)).
    reflexivity.
  - apply (proj2 (proj2 (returned_tables_shown no_tabulate upcoming_down_obb)
                    (fst (get_upcoming_ipos no_tabulate upcoming_down_obb 10)) new_frame
                    [past_banner 10]
                    (MkFrame past_labels
                       [ Row (Num 0) [Str "Epsilon"; Date 2024 6 1; Num 30; Str "NASDAQ"];
                         Row (Num 1) [Str "Delta"; Date 2024 1 1; Num 17; Str "NYSE"] ])
                    eq_refl eq_refl eq_refl eq_refl) import_error).
    reflexivity.
Defined.

(** ** The order of the returned rows, missing dates included *)

Lemma date_column_of_response (fields : list string) (df : DataFrame) (kf : string)
    (j : nat) :
  has_fields fields df = true -> nth_error fields j = Some kf ->
  column kf df = map (cell_at j) (projected fields df).
Proof.
  intros Hf Hj.
  rewrite column_once
    by (apply (has_fields_In fields); [exact Hf | eapply nth_error_In; eassumption]).
  symmetry. now apply projected_key.
Qed.

Lemma returned_rows_permuted (fields : list string) (df : DataFrame) (j : nat)
    (asc : bool) :
  Permutation (map row_cells (relabel 0 (nargsort j asc (projected fields df))))
              (map (project_row fields (columns df)) (rows df)).
Proof.
  rewrite relabel_cells.
  eapply Permutation_trans; [apply Permutation_map, nargsort_perm|].
  unfold projected. rewrite map_map. reflexivity.
Qed.

(** C2 (amended).  For a non-empty provider response that contains the
    required fields, the rows the upcoming query returns are the provider's
    rows, projected, in this order: first the rows that hold an expected
    date, non-decreasing in Expected Date, then the rows without one.  When
    every row holds an expected date the whole returned sequence is
    non-decreasing: the date at position i is at most the date at any later
    position j. *)
Theorem upcoming_non_decreasing (pd : pandas) (obb : OBB) (limit : Z) (df : DataFrame) :
  answer (upcoming_ipo obb limit) = Ok df ->
  rows df <> [] ->
  has_fields upcoming_fields df = true ->
  ordered_field "expected_date" df = true ->
  exists out res dated,
    get_upcoming_ipos pd obb limit = (out, Ok res) /\
    Permutation (map row_cells (rows res))
                (map (project_row upcoming_fields (columns df)) (rows df)) /\
    column "Expected Date" res
    = dated ++ repeat NA (List.length (filter isna (column "expected_date" df))) /\
    Permutation dated (filter notna (column "expected_date" df)) /\
    (forall i j a b, (i < j)%nat ->
       nth_error dated i = Some a -> nth_error dated j = Some b -> leb a b = true) /\
    (filled_field "expected_date" df = true ->
     forall i j a b, (i < j)%nat ->
       nth_error (column "Expected Date" res) i = Some a ->
       nth_error (column "Expected Date" res) j = Some b ->
       leb a b = true).
Proof.
  intros Ha Hr Hf Ho.
  rewrite (get_upcoming_ipos_rows pd _ _ _ Ha Hr Hf Ho).
  pose proof (date_column_of_response upcoming_fields df "expected_date" 1 Hf eq_refl) as Hc.
  pose proof Ho as Ho'. unfold ordered_field in Ho'. rewrite Hc in Ho'.
  destruct (nargsort_keys 1 true _ Ho') as (dated & H1 & H2 & H3).
  do 2 eexists. exists dated. split; [reflexivity|].
  rewrite (column_of_result _ _ 1%nat) by reflexivity.
  cbn [rows]. rewrite Hc.
  split; [apply returned_rows_permuted|].
  split; [exact H1|]. split; [exact H2|].
  split; [apply (StronglySorted_nth (fun a b => leb a b = true)), H3|].
  intros Hn. apply (StronglySorted_nth (fun a b => leb a b = true)).
  apply (nargsort_ordered upcoming_fields df 1 "expected_date" true); auto.
Qed.

Lemma upcoming_non_decreasing_witness :
  exists out res dated,
    get_upcoming_ipos sample_pd (answering upcoming_with_gap) 10 = (out, Ok res) /\
    Permutation (map row_cells (rows res))
                (map (project_row upcoming_fields (columns upcoming_with_gap))
                     (rows upcoming_with_gap)) /\
    column "Expected Date" res = dated ++ [NA] /\
    Permutation dated [Date 2025 1 15] /\
    (forall i j a b, (i < j)%nat ->
       nth_error dated i = Some a -> nth_error dated j = Some b -> leb a b = true) /\
    (filled_field "expected_date" upcoming_with_gap = true ->
     forall i j a b, (i < j)%nat ->
       nth_error (column "Expected Date" res) i = Some a ->
       nth_error (column "Expected Date" res) j = Some b ->
       leb a b = true).
Proof.
  apply (upcoming_non_decreasing sample_pd (answering upcoming_with_gap) 10
           upcoming_with_gap);
    [reflexivity | discriminate | reflexivity | reflexivity].
Defined.

(** Counterexample to C2 as the specification words it: in a response one
    row of which has no expected date, that row is returned last, and a date
    is not at most a missing value. *)
Lemma upcoming_non_decreasing_counterexample :
  answer (upcoming_ipo (answering upcoming_with_gap) 10) = Ok upcoming_with_gap /\
  has_fields upcoming_fields upcoming_with_gap = true /\
  ordered_field "expected_date" upcoming_with_gap = true /\
  (exists out res,
      get_upcoming_ipos sample_pd (answering upcoming_with_gap) 10 = (out, Ok res) /\
      column "Expected Date" res = [Date 2025 1 15; NA]) /\
  leb (Date 2025 1 15) NA = false /\
  ~ (forall pd obb limit df,
        answer (upcoming_ipo obb limit) = Ok df ->
        rows df <> [] ->
        has_fields upcoming_fields df = true ->
        ordered_field "expected_date" df = true ->
        exists out res,
          get_upcoming_ipos pd obb limit = (out, Ok res) /\
          forall i j a b, (i < j)%nat ->
            nth_error (column "Expected Date" res) i = Some a ->
            nth_error (column "Expected Date" res) j = Some b ->
            leb a b = true).
Proof.
  split; [reflexivity|]. split; [reflexivity|]. split; [reflexivity|].
  split; [do 2 eexists; split; reflexivity|]. split; [reflexivity|].
  intros H.
  destruct (H sample_pd (answering upcoming_with_gap) 10 upcoming_with_gap)
    as (out & res & Hq & Hs); try reflexivity; try discriminate.
  injection Hq as _ <-.
  specialize (Hs 0%nat 1%nat (Date 2025 1 15) NA (Nat.lt_0_1) eq_refl eq_refl).
  discriminate Hs.
Qed.

(** C3 (amended).  For a non-empty provider response that contains the
    required fields, the rows the past query returns are the provider's
    rows, projected, in this order: first the rows that hold a date,
    non-increasing in IPO Date, then the rows without one.  When every row
    holds a date the whole returned sequence is non-increasing: the date at
    position i is at least the date at any later position j.  In particular
    a response with the dates 2024-01-01, 2024-06-01 comes back from the
    query with limit 10 ordered 2024-06-01, 2024-01-01. *)
Theorem past_non_increasing (pd : pandas) (obb : OBB) :
  (forall limit df,
      answer (historical_ipo obb limit) = Ok df ->
      rows df <> [] ->
      has_fields past_fields df = true ->
      ordered_field "date" df = true ->
      exists out res dated,
        get_past_ipos pd obb limit = (out, Ok res) /\
        Permutation (map row_cells (rows res))
                    (map (project_row past_fields (columns df)) (rows df)) /\
        column "IPO Date" res
        = dated ++ repeat NA (List.length (filter isna (column "date" df))) /\
        Permutation dated (filter notna (column "date" df)) /\
        (forall i j a b, (i < j)%nat ->
           nth_error dated i = Some a -> nth_error dated j = Some b -> leb b a = true) /\
        (filled_field "date" df = true ->
         forall i j a b, (i < j)%nat ->
           nth_error (column "IPO Date" res) i = Some a ->
           nth_error (column "IPO Date" res) j = Some b ->
           leb b a = true)) /\
  (forall df,
      answer (historical_ipo obb 10) = Ok df ->
      has_fields past_fields df = true ->
      column "date" df = [Date 2024 1 1; Date 2024 6 1] ->
      exists out res,
        get_past_ipos pd obb 10 = (out, Ok res) /\
        List.length (rows res) = 2%nat /\
        column "IPO Date" res = [Date 2024 6 1; Date 2024 1 1]).
Proof.
  split.
  - intros limit df Ha Hr Hf Ho.
    rewrite (get_past_ipos_rows pd _ _ _ Ha Hr Hf Ho).
    pose proof (date_column_of_response past_fields df "date" 1 Hf eq_refl) as Hc.
    pose proof Ho as Ho'. unfold ordered_field in Ho'. rewrite Hc in Ho'.
    destruct (nargsort_keys 1 false _ Ho') as (dated & H1 & H2 & H3).
    do 2 eexists. exists dated. split; [reflexivity|].
    rewrite (column_of_result _ _ 1%nat) by reflexivity.
    cbn [rows]. rewrite Hc.
    split; [apply returned_rows_permuted|].
    split; [exact H1|]. split; [exact H2|].
    split; [apply (StronglySorted_nth (fun a b => leb b a = true)), H3|].
    intros Hn. apply (StronglySorted_nth (fun a b => leb b a = true)).
    apply (nargsort_ordered past_fields df 1 "date" false); auto.
  - intros df Ha Hf Hc.
    assert (Ho : ordered_field "date" df = true).
    { unfold ordered_field. rewrite Hc. reflexivity. }
    pose proof Hc as Hc'.
    rewrite column_once in Hc'
      by (apply (has_fields_In past_fields); [exact Hf | simpl; tauto]).
    destruct (rows df) as [|r1 [|r2 [|r3 rs]]] eqn:Er; try discriminate.
    injection Hc' as H1 H2.
    rewrite (get_past_ipos_rows pd _ _ _ Ha) by (auto; rewrite Er; discriminate).
    do 2 eexists. split; [reflexivity|].
    rewrite (column_of_result _ _ 1%nat) by reflexivity.
    unfold projected. rewrite Er.
    unfold nargsort, cell_at in *. simpl. rewrite H1, H2. simpl.
    split; reflexivity.
Qed.

Lemma past_non_increasing_witness :
  (exists out res dated,
      get_past_ipos sample_pd (answering past_with_gap) 10 = (out, Ok res) /\
      Permutation (map row_cells (rows res))
                  (map (project_row past_fields (columns past_with_gap))
                       (rows past_with_gap)) /\
      column "IPO Date" res = dated ++ [NA] /\
      Permutation dated [Date 2024 1 1; Date 2024 6 1] /\
      (forall i j a b, (i < j)%nat ->
         nth_error dated i = Some a -> nth_error dated j = Some b -> leb b a = true) /\
      (filled_field "date" past_with_gap = true ->
       forall i j a b, (i < j)%nat ->
         nth_error (column "IPO Date" res) i = Some a ->
         nth_error (column "IPO Date" res) j = Some b ->
         leb b a = true)) /\
  (exists out res,
      get_past_ipos sample_pd sample_obb 10 = (out, Ok res) /\
      List.length (rows res) = 2%nat /\
      column "IPO Date" res = [Date 2024 6 1; Date 2024 1 1]).
Proof.
  split.
  - apply (proj1 (past_non_increasing sample_pd (answering past_with_gap)) 10 past_with_gap);
      [reflexivity | discriminate | reflexivity | reflexivity].
  - apply (proj2 (past_non_increasing sample_pd sample_obb) sample_past); reflexivity.
Defined.

(** Counterexample to C3 as the specification words it: in a response one
    row of which has no date, that row is returned last, after the earliest
    date, and a missing value is not at most a date. *)
Lemma past_non_increasing_counterexample :
  answer (historical_ipo (answering past_with_gap) 10) = Ok past_with_gap /\
  has_fields past_fields past_with_gap = true /\
  ordered_field "date" past_with_gap = true /\
  (exists out res,
      get_past_ipos sample_pd (answering past_with_gap) 10 = (out, Ok res) /\
      column "IPO Date" res = [Date 2024 6 1; Date 2024 1 1; NA]) /\
  leb NA (Date 2024 1 1) = false /\
  ~ (forall pd obb limit df,
        answer (historical_ipo obb limit) = Ok df ->
        rows df <> [] ->
        has_fields past_fields df = true ->
        ordered_field "date" df = true ->
        exists out res,
          get_past_ipos pd obb limit = (out, Ok res) /\
          forall i j a b, (i < j)%nat ->
            nth_error (column "IPO Date" res) i = Some a ->
            nth_error (column "IPO Date" res) j = Some b ->
            leb b a = true).
Proof.
  split; [reflexivity|]. split; [reflexivity|]. split; [reflexivity|].
  split; [do 2 eexists; split; reflexivity|]. split; [reflexivity|].
  intros H.
  destruct (H sample_pd (answering past_with_gap) 10 past_with_gap)
    as (out & res & Hq & Hs); try reflexivity; try discriminate.
  injection Hq as _ <-.
  assert (L : (1 < 2)%nat) by lia.
  specialize (Hs 1%nat 2%nat (Date 2024 1 1) NA L eq_refl eq_refl).
  discriminate Hs.
Qed.
